(** * Heroes of History local analyzer: classifier and entity builder

    A shallow embedding of [HoHLocalAnalyzer.classify_startup_messages] and
    [HoHLocalAnalyzer.build_master_tables] of [scripts/hoh_local_analyzer.py],
    with the Python values, exceptions and attribute updates they rely on. *)

From Stdlib Require Import ZArith Ascii String List Bool Lia.
From stdpp Require Import base option list gmap strings fin_maps.

Set Warnings "-register-all".
Local Open Scope Z_scope.

(** ** JSON values as Python sees them after [json.loads] *)

(** A mapping is kept as an association list in key order; the value bound
    to a key is the one of its first pair.  Numbers are the integers. *)
Inductive json : Type :=
| JNull
| JBool (b : bool)
| JNum (n : Z)
| JStr (s : string)
| JList (l : list json)
| JObj (kv : list (string * json)).

Inductive exn : Type :=
| AttributeError
| TypeError
| KeyError
| UnicodeEncodeError
| Exception (msg : string).

Inductive result (A : Type) : Type :=
| Ok (a : A)
| Raise (e : exn).
Arguments Ok {A} a.
Arguments Raise {A} e.

Definition rbind {A B} (r : result A) (k : A -> result B) : result B :=
  match r with
  | Ok a => k a
  | Raise e => Raise e
  end.

Declare Scope py_scope.
Delimit Scope py_scope with py.
Notation "x <~ r ;; k" := (rbind r (fun x => k))
  (at level 100, r at next level, right associativity) : py_scope.

Fixpoint rmap {A B} (f : A -> result B) (xs : list A) : result (list B) :=
  match xs with
  | [] => Ok []
  | x :: xs' => (y <~ f x ;; ys <~ rmap f xs' ;; Ok (y :: ys))%py
  end.

(** ** Strings *)

Module PyStr.

(** [s.endswith(suf)]: some tail of [s] is [suf]. *)
Fixpoint endswith (s suf : string) : bool :=
  String.eqb s suf ||
  match s with
  | EmptyString => false
  | String _ s' => endswith s' suf
  end.

(** [s.startswith(p)]. *)
Fixpoint startswith (s p : string) : bool :=
  match p, s with
  | EmptyString, _ => true
  | String a p', String b s' => Ascii.eqb a b && startswith s' p'
  | String _ _, EmptyString => false
  end.

(** [old in s] for strings: [old] starts at some position of [s]. *)
Fixpoint occurs (old s : string) : bool :=
  startswith s old ||
  match s with
  | EmptyString => false
  | String _ s' => occurs old s'
  end.

(** [s.replace(old, new)] for a non-empty [old]: the occurrences of [old]
    are replaced from the left and do not overlap.  [skip] counts the
    characters of the occurrence being replaced that are still ahead. *)
Fixpoint replace_from (old new : string) (skip : nat) (s : string) : string :=
  match s with
  | EmptyString => EmptyString
  | String c s' =>
      match skip with
      | S k => replace_from old new k s'
      | O =>
          if startswith s old
          then new +:+ replace_from old new (Nat.pred (String.length old)) s'
          else String c (replace_from old new O s')
      end
  end.

Definition replace (s old new : string) : string := replace_from old new O s.

(** The one-character strings a [for] loop over [s] yields. *)
Fixpoint chars (s : string) : list string :=
  match s with
  | EmptyString => []
  | String c s' => String c EmptyString :: chars s'
  end.

End PyStr.

(** ** Python operations on JSON values *)

Module Py.

(** [bool(v)]. *)
Definition truthy (v : json) : bool :=
  match v with
  | JNull => false
  | JBool b => b
  | JNum n => negb (n =? 0)
  | JStr s => negb (String.eqb s EmptyString)
  | JList l => match l with [] => false | _ => true end
  | JObj kv => match kv with [] => false | _ => true end
  end.

(** Lookup in a mapping: the first pair with the key. *)
Fixpoint assoc (k : string) (kv : list (string * json)) : option json :=
  match kv with
  | [] => None
  | (k', v) :: kv' => if String.eqb k k' then Some v else assoc k kv'
  end.

(** [v.get(k, d)]; only mappings have a [get] attribute. *)
Definition get (v : json) (k : string) (d : json) : result json :=
  match v with
  | JObj kv => Ok (default d (assoc k kv))
  | _ => Raise AttributeError
  end.

(** [v[k]] for a string key [k]. *)
Definition getitem (v : json) (k : string) : result json :=
  match v with
  | JObj kv => match assoc k kv with Some x => Ok x | None => Raise KeyError end
  | _ => Raise TypeError
  end.

Definition is_str (k : string) (v : json) : bool :=
  match v with JStr s => String.eqb s k | _ => false end.

(** [k in v] for a string [k]. *)
Definition contains (k : string) (v : json) : result bool :=
  match v with
  | JObj kv => Ok (bool_decide (is_Some (assoc k kv)))
  | JList l => Ok (existsb (is_str k) l)
  | JStr s => Ok (PyStr.occurs k s)
  | _ => Raise TypeError
  end.

(** [v.endswith(suf)]; only strings have the attribute. *)
Definition endswith (v : json) (suf : string) : result bool :=
  match v with
  | JStr s => Ok (PyStr.endswith s suf)
  | _ => Raise AttributeError
  end.

(** [v.replace(old, new)]; only strings have the attribute. *)
Definition replace (v : json) (old new : string) : result string :=
  match v with
  | JStr s => Ok (PyStr.replace s old new)
  | _ => Raise AttributeError
  end.

(** The keys of a mapping, each once, in order of first appearance. *)
Definition keys (kv : list (string * json)) : list string :=
  remove_dups (map fst kv).

(** The elements a [for] loop (or a comprehension) over [v] visits. *)
Definition iter (v : json) : result (list json) :=
  match v with
  | JList l => Ok l
  | JObj kv => Ok (map JStr (keys kv))
  | JStr s => Ok (map JStr (PyStr.chars s))
  | _ => Raise TypeError
  end.

(** Lists and mappings cannot be hashed. *)
Definition hashable (v : json) : bool :=
  match v with
  | JList _ | JObj _ => false
  | _ => true
  end.

(** [a == b] on hashable values: [True == 1] and [False == 0]. *)
Definition as_int (v : json) : option Z :=
  match v with
  | JBool b => Some (if b then 1 else 0)
  | JNum n => Some n
  | _ => None
  end.

Definition eqb (a b : json) : bool :=
  match a, b with
  | JNull, JNull => true
  | JStr s, JStr t => String.eqb s t
  | _, _ =>
      match as_int a, as_int b with
      | Some x, Some y => x =? y
      | _, _ => false
      end
  end.

(** A Python [set] of hashable values is kept as the list of what was
    added.  [{f(x) for x in xs}] raises on the first unhashable element. *)
Definition set_of (vs : list json) : result (list json) :=
  rmap (fun v => if hashable v then Ok v else Raise TypeError) vs.

(** [v in hs] for a set [hs]: [v] is hashed first. *)
Definition in_set (v : json) (hs : list json) : result bool :=
  if hashable v then Ok (existsb (eqb v) hs) else Raise TypeError.

End Py.

(** ** Attribute updates and exceptions

    A method body is a function from the object's attributes to the
    attributes it leaves behind and either a value or the exception that
    ended it; what was assigned before a [raise] stays assigned. *)

Section StateExn.
Context {St : Type}.

Definition M (A : Type) : Type := St -> St * result A.

Definition ret {A} (a : A) : M A := fun s => (s, Ok a).

Definition bind {A B} (m : M A) (k : A -> M B) : M B :=
  fun s =>
    match m s with
    | (s', Ok a) => k a s'
    | (s', Raise e) => (s', Raise e)
    end.

Definition lift {A} (r : result A) : M A := fun s => (s, r).

Definition raise {A} (e : exn) : M A := fun s => (s, Raise e).

Definition modify (f : St -> St) : M unit := fun s => (f s, Ok tt).

Definition gets {A} (f : St -> A) : M A := fun s => (s, Ok (f s)).

(** [for x in xs: body]. *)
Fixpoint for_each {A} (xs : list A) (body : A -> M unit) : M unit :=
  match xs with
  | [] => ret tt
  | x :: xs' => bind (body x) (fun _ => for_each xs' body)
  end.
End StateExn.
Arguments M : clear implicits.

Notation "x <- m ;; k" := (bind m (fun x => k))
  (at level 100, m at next level, right associativity) : py_scope.
Notation "m ;; k" := (bind m (fun _ => k))
  (at level 100, right associativity) : py_scope.

Local Open Scope py_scope.

(** ** The classified buckets: the [raw_*] attributes *)

Record Buckets : Type := mkBuckets {
  raw_playerdto : json;
  raw_heropush : json;
  raw_equipment_lists : list json;
  raw_relic_lists : list json;
  raw_cities : list json;
  raw_alliance_members : json;
  raw_alliance_cities : list json
}.

(** What the first lines of [classify_startup_messages] assign; Python's
    [None] is [JNull]. *)
Definition empty_buckets : Buckets :=
  mkBuckets JNull JNull [] [] [] JNull [].

Definition set_raw_playerdto (v : json) (b : Buckets) : Buckets :=
  mkBuckets v (raw_heropush b) (raw_equipment_lists b) (raw_relic_lists b)
    (raw_cities b) (raw_alliance_members b) (raw_alliance_cities b).

Definition set_raw_heropush (v : json) (b : Buckets) : Buckets :=
  mkBuckets (raw_playerdto b) v (raw_equipment_lists b) (raw_relic_lists b)
    (raw_cities b) (raw_alliance_members b) (raw_alliance_cities b).

Definition append_raw_equipment_lists (v : json) (b : Buckets) : Buckets :=
  mkBuckets (raw_playerdto b) (raw_heropush b) (raw_equipment_lists b ++ [v])
    (raw_relic_lists b) (raw_cities b) (raw_alliance_members b)
    (raw_alliance_cities b).

Definition append_raw_relic_lists (v : json) (b : Buckets) : Buckets :=
  mkBuckets (raw_playerdto b) (raw_heropush b) (raw_equipment_lists b)
    (raw_relic_lists b ++ [v]) (raw_cities b) (raw_alliance_members b)
    (raw_alliance_cities b).

Definition append_raw_cities (v : json) (b : Buckets) : Buckets :=
  mkBuckets (raw_playerdto b) (raw_heropush b) (raw_equipment_lists b)
    (raw_relic_lists b) (raw_cities b ++ [v]) (raw_alliance_members b)
    (raw_alliance_cities b).

Definition set_raw_alliance_members (v : json) (b : Buckets) : Buckets :=
  mkBuckets (raw_playerdto b) (raw_heropush b) (raw_equipment_lists b)
    (raw_relic_lists b) (raw_cities b) v (raw_alliance_cities b).

Definition append_raw_alliance_cities (v : json) (b : Buckets) : Buckets :=
  mkBuckets (raw_playerdto b) (raw_heropush b) (raw_equipment_lists b)
    (raw_relic_lists b) (raw_cities b) (raw_alliance_members b)
    (raw_alliance_cities b ++ [v]).

(** ** The message classifier *)

(** The body of [for msg in self.messages]; every [continue] ends it. *)
Definition classify_message (msg : json) : M Buckets unit :=
  dto_type <- lift (Py.get msg "@type" (JStr EmptyString)) ;;
  is_player <- lift (Py.endswith dto_type "PlayerDTO") ;;
  if is_player then modify (set_raw_playerdto msg) else
  is_heropush <- lift (Py.endswith dto_type "HeroPush") ;;
  if is_heropush then modify (set_raw_heropush msg) else
  is_equipment <- lift (Py.endswith dto_type "AllEquipmentUnitDataDTO") ;;
  if is_equipment then
    has_list <- lift (Py.contains "allEquipment" msg) ;;
    if has_list then
      all_equipment <- lift (Py.getitem msg "allEquipment") ;;
      modify (append_raw_equipment_lists all_equipment)
    else ret tt
  else
  is_relic <- lift (Py.endswith dto_type "RelicUnitDataDTO") ;;
  if is_relic then modify (append_raw_relic_lists msg) else
  is_city <- lift (Py.endswith dto_type "CityDTO") ;;
  if is_city then modify (append_raw_cities msg) else
  is_members <- lift (Py.endswith dto_type "AllianceMembersResponse") ;;
  if is_members then modify (set_raw_alliance_members msg) else
  is_alliance_city <- lift (Py.endswith dto_type "AllianceCityDTO") ;;
  if is_alliance_city then modify (append_raw_alliance_cities msg) else
  ret tt.

(** [messages] is [self.messages], whatever [rootContext.messages] held. *)
Definition classify_startup_messages (messages : json) : M Buckets unit :=
  modify (fun _ => empty_buckets) ;;
  msgs <- lift (Py.iter messages) ;;
  for_each msgs classify_message.

(** The buckets a stream leaves behind, and how classification ended. *)
Definition classify (messages : json) : Buckets * result unit :=
  classify_startup_messages messages empty_buckets.

(** ** The entity model: the attributes [build_master_tables] assigns *)

Module Profile.
Record t : Type := mk {
  id : json; displayName : json; username : json; allianceId : json }.
End Profile.

Module Hero.
Record t : Type := mk {
  heroDefinitionId : json; name : json; level : json;
  ascensionLevel : json; abilityLevel : json; awakeningLevel : json;
  abilityMasteryPoints : json; unlockedAt : json }.
End Hero.

Module Deck.
Record t : Type := mk { definitionId : json; heroes : list string }.
End Deck.

Module Equipment.
Record t : Type := mk {
  id : json; slot : json; set : json; rarity : json; level : json;
  mainAttribute : json; subAttributes : json }.
End Equipment.

Module Relic.
Record t : Type := mk { relicDefinitionId : json; level : json; age : json }.
End Relic.

Module City.
Record t : Type := mk {
  id : json; definitionId : json;
  placedBuildingAmounts : json; buildingLimits : json }.
End City.

Module AllianceMember.
Record t : Type := mk {
  id : json; name : json; level : json; power : json; age : json }.
End AllianceMember.

Module AllianceCity.
Record t : Type := mk { id : json; ownerId : json; definitionId : json }.
End AllianceCity.

(** [player_info] is [None] while it is the empty mapping [__init__] gives
    it; [equipment] and [relics] are the mappings from display name to
    entries. *)
Record Model : Type := mkModel {
  player_info : option Profile.t;
  heroes : list Hero.t;
  decks : list Deck.t;
  equipment : gmap string (list Equipment.t);
  relics : gmap string (list Relic.t);
  cities : list City.t;
  alliance_members : list AllianceMember.t;
  alliance_cities : list AllianceCity.t
}.

(** The attributes as [__init__] leaves them. *)
Definition init_model : Model := mkModel None [] [] ∅ ∅ [] [] [].

Definition set_player_info (v : option Profile.t) (m : Model) : Model :=
  mkModel v (heroes m) (decks m) (equipment m) (relics m) (cities m)
    (alliance_members m) (alliance_cities m).

Definition set_heroes (v : list Hero.t) (m : Model) : Model :=
  mkModel (player_info m) v (decks m) (equipment m) (relics m) (cities m)
    (alliance_members m) (alliance_cities m).

Definition set_decks (v : list Deck.t) (m : Model) : Model :=
  mkModel (player_info m) (heroes m) v (equipment m) (relics m) (cities m)
    (alliance_members m) (alliance_cities m).

Definition set_equipment (v : gmap string (list Equipment.t)) (m : Model) : Model :=
  mkModel (player_info m) (heroes m) (decks m) v (relics m) (cities m)
    (alliance_members m) (alliance_cities m).

Definition set_relics (v : gmap string (list Relic.t)) (m : Model) : Model :=
  mkModel (player_info m) (heroes m) (decks m) (equipment m) v (cities m)
    (alliance_members m) (alliance_cities m).

Definition set_cities (v : list City.t) (m : Model) : Model :=
  mkModel (player_info m) (heroes m) (decks m) (equipment m) (relics m) v
    (alliance_members m) (alliance_cities m).

Definition set_alliance_members (v : list AllianceMember.t) (m : Model) : Model :=
  mkModel (player_info m) (heroes m) (decks m) (equipment m) (relics m)
    (cities m) v (alliance_cities m).

Definition set_alliance_cities (v : list AllianceCity.t) (m : Model) : Model :=
  mkModel (player_info m) (heroes m) (decks m) (equipment m) (relics m)
    (cities m) (alliance_members m) v.

(** [d[k].append(x)] after [if k not in d: d[k] = []]. *)
Definition ensure_key {A} (k : string) (d : gmap string (list A)) : gmap string (list A) :=
  match d !! k with
  | Some _ => d
  | None => <[k := []]> d
  end.

Definition append_under {A} (k : string) (x : A) (d : gmap string (list A)) : gmap string (list A) :=
  alter (fun l => l ++ [x]) k d.

(** ** The entity builder, step by step *)

(** The mapping literals of the loops. *)
Definition profile_entry (p : json) : result Profile.t :=
  (id <~ Py.get p "id" JNull ;;
   displayName <~ Py.get p "displayName" JNull ;;
   username <~ Py.get p "username" JNull ;;
   allianceId <~ Py.get p "allianceId" JNull ;;
   Ok (Profile.mk id displayName username allianceId)).

Definition null_profile : Profile.t := Profile.mk JNull JNull JNull JNull.

Definition hero_entry (h : json) : result Hero.t :=
  (hero_id <~ Py.get h "heroDefinitionId" JNull ;;
   name <~ (if Py.truthy hero_id
            then (n <~ Py.replace hero_id "hero." EmptyString ;; Ok (JStr n))
            else Ok JNull) ;;
   level <~ Py.get h "level" JNull ;;
   ascensionLevel <~ Py.get h "ascensionLevel" JNull ;;
   abilityLevel <~ Py.get h "abilityLevel" JNull ;;
   awakeningLevel <~ Py.get h "awakeningLevel" JNull ;;
   abilityMasteryPoints <~ Py.get h "abilityMasteryPoints" JNull ;;
   unlockedAt <~ Py.get h "unlockedAt" JNull ;;
   Ok (Hero.mk hero_id name level ascensionLevel abilityLevel awakeningLevel
         abilityMasteryPoints unlockedAt)).

Definition deck_entry (d : json) : result Deck.t :=
  (definitionId <~ Py.get d "definitionId" JNull ;;
   ids <~ Py.get d "heroDefinitionId" (JList []) ;;
   hids <~ Py.iter ids ;;
   heroes <~ rmap (fun hid => Py.replace hid "hero." EmptyString) hids ;;
   Ok (Deck.mk definitionId heroes)).

Definition equipment_entry (eq : json) : result Equipment.t :=
  (id <~ Py.get eq "id" JNull ;;
   slot <~ Py.get eq "equipmentSlotTypeDefinitionId" JNull ;;
   set <~ Py.get eq "equipmentSetDefinitionId" JNull ;;
   rarity <~ Py.get eq "equipmentRarityDefinitionId" JNull ;;
   level <~ Py.get eq "level" JNull ;;
   mainAttribute <~ Py.get eq "mainAttribute" JNull ;;
   subAttributes <~ Py.get eq "subAttributes" (JList []) ;;
   Ok (Equipment.mk id slot set rarity level mainAttribute subAttributes)).

Definition city_entry (c : json) : result City.t :=
  (id <~ Py.get c "id" JNull ;;
   definitionId <~ Py.get c "definitionId" JNull ;;
   placedBuildingAmounts <~ Py.get c "placedBuildingAmounts" (JObj []) ;;
   buildingLimits <~ Py.get c "buildingLimits" (JObj []) ;;
   Ok (City.mk id definitionId placedBuildingAmounts buildingLimits)).

Definition alliance_member_entry (m : json) : result AllianceMember.t :=
  (id <~ Py.get m "playerId" JNull ;;
   name <~ Py.get m "playerName" JNull ;;
   level <~ Py.get m "level" JNull ;;
   power <~ Py.get m "power" JNull ;;
   age <~ Py.get m "ageDefinitionId" JNull ;;
   Ok (AllianceMember.mk id name level power age)).

Definition alliance_city_entry (ac : json) : result AllianceCity.t :=
  (id <~ Py.get ac "id" JNull ;;
   ownerId <~ Py.get ac "playerId" JNull ;;
   definitionId <~ Py.get ac "definitionId" JNull ;;
   Ok (AllianceCity.mk id ownerId definitionId)).

(** [hero_def and hero_def in hero_set], as the [if] reads it. *)
Definition owned (hero_def : json) (hero_set : list json) : result bool :=
  if Py.truthy hero_def then Py.in_set hero_def hero_set else Ok false.

Section Build.
Variable b : Buckets.

(** 1. Player profile. *)
Definition build_player_info : M Model unit :=
  if Py.truthy (raw_playerdto b) then
    info <- lift (profile_entry (raw_playerdto b)) ;;
    modify (set_player_info (Some info))
  else
    modify (set_player_info (Some null_profile)).

(** 2. Heroes; the value is the local [hero_set]. *)
Definition build_heroes : M Model (list json) :=
  (if negb (Py.truthy (raw_heropush b))
   then raise (Exception "No HeroPush message found! Cannot build hero list.")
   else ret tt) ;;
  modify (set_heroes []) ;;
  unlocked <- lift (Py.get (raw_heropush b) "unlocked" (JList [])) ;;
  hs <- lift (Py.iter unlocked) ;;
  for_each hs (fun h =>
    entry <- lift (hero_entry h) ;;
    modify (fun m => set_heroes (heroes m ++ [entry]) m)) ;;
  built <- gets heroes ;;
  lift (Py.set_of (map Hero.heroDefinitionId built)).

(** 3. Decks. *)
Definition build_decks : M Model unit :=
  modify (set_decks []) ;;
  deck_list <- lift (Py.get (raw_heropush b) "deck" (JList [])) ;;
  ds <- lift (Py.iter deck_list) ;;
  for_each ds (fun d =>
    entry <- lift (deck_entry d) ;;
    modify (fun m => set_decks (decks m ++ [entry]) m)).

(** 4. Equipment. *)
Definition build_equipment_item (hero_set : list json) (eq : json) : M Model unit :=
  hero_def <- lift (Py.get eq "equippedOnHeroDefinitionId" JNull) ;;
  keep <- lift (owned hero_def hero_set) ;;
  if keep then
    hero_name <- lift (Py.replace hero_def "hero." EmptyString) ;;
    modify (fun m => set_equipment (ensure_key hero_name (equipment m)) m) ;;
    entry <- lift (equipment_entry eq) ;;
    modify (fun m => set_equipment (append_under hero_name entry (equipment m)) m)
  else ret tt.

Definition build_equipment (hero_set : list json) : M Model unit :=
  modify (set_equipment ∅) ;;
  for_each (raw_equipment_lists b) (fun equip_group =>
    eqs <- lift (Py.iter equip_group) ;;
    for_each eqs (build_equipment_item hero_set)).

(** 5. Relics. *)
Definition build_relic (hero_set : list json) (relic_entry : json) : M Model unit :=
  relic_def <- lift (Py.get relic_entry "relicDefinitionId" JNull) ;;
  level <- lift (Py.get relic_entry "level" JNull) ;;
  age <- lift (Py.get relic_entry "ageDefinitionId" JNull) ;;
  has_unit <- lift (Py.contains "supportingUnit" relic_entry) ;;
  hero_def <- (if has_unit then
                 unit <- lift (Py.getitem relic_entry "supportingUnit") ;;
                 lift (Py.get unit "definitionId" JNull)
               else ret JNull) ;;
  keep <- lift (owned hero_def hero_set) ;;
  if keep then
    hero_name <- lift (Py.replace hero_def "hero." EmptyString) ;;
    modify (fun m => set_relics (ensure_key hero_name (relics m)) m) ;;
    modify (fun m =>
      set_relics (append_under hero_name (Relic.mk relic_def level age) (relics m)) m)
  else ret tt.

Definition build_relics (hero_set : list json) : M Model unit :=
  modify (set_relics ∅) ;;
  for_each (raw_relic_lists b) (build_relic hero_set).

(** 6. User cities, from the player's [unlockedCities]. *)
Definition build_cities : M Model unit :=
  modify (set_cities []) ;;
  unlocked_cities <- (if Py.truthy (raw_playerdto b)
                      then lift (Py.get (raw_playerdto b) "unlockedCities" (JList []))
                      else ret (JList [])) ;;
  cs <- lift (Py.iter unlocked_cities) ;;
  for_each cs (fun c =>
    entry <- lift (city_entry c) ;;
    modify (fun m => set_cities (cities m ++ [entry]) m)).

(** 7. Alliance members. *)
Definition build_alliance_members : M Model unit :=
  modify (set_alliance_members []) ;;
  if Py.truthy (raw_alliance_members b) then
    members <- lift (Py.get (raw_alliance_members b) "members" (JList [])) ;;
    ms <- lift (Py.iter members) ;;
    for_each ms (fun m =>
      entry <- lift (alliance_member_entry m) ;;
      modify (fun s => set_alliance_members (alliance_members s ++ [entry]) s))
  else ret tt.

(** 8. Alliance cities. *)
Definition build_alliance_cities : M Model unit :=
  modify (set_alliance_cities []) ;;
  for_each (raw_alliance_cities b) (fun ac =>
    entry <- lift (alliance_city_entry ac) ;;
    modify (fun m => set_alliance_cities (alliance_cities m ++ [entry]) m)).

Definition build_master_tables : M Model unit :=
  build_player_info ;;
  hero_set <- build_heroes ;;
  build_decks ;;
  build_equipment hero_set ;;
  build_relics hero_set ;;
  build_cities ;;
  build_alliance_members ;;
  build_alliance_cities.
End Build.

(** [classify_startup_messages] then [build_master_tables], as [main] calls
    them on a fresh analyzer; [None] when classification raised. *)
Definition analyze (messages : json) : option (Model * result unit) :=
  match classify messages with
  | (b, Ok _) => Some (build_master_tables b init_model)
  | (_, Raise _) => None
  end.

(** ** Loading the startup document *)

Definition missing_messages : exn :=
  Exception "Startup JSON missing rootContext.messages".

(** The end of [fetch_startup]: [self.messages] from the parsed document
    [self.startup].  The second test of the [and] is evaluated only when
    the first holds. *)
Definition fetch_startup_messages (startup : json) : result json :=
  (has_root <~ Py.contains "rootContext" startup ;;
   has_messages <~ (if has_root : bool
                    then (root <~ Py.getitem startup "rootContext" ;;
                          Py.contains "messages" root)
                    else Ok false) ;;
   if has_messages : bool
   then (root <~ Py.getitem startup "rootContext" ;; Py.getitem root "messages")
   else Raise missing_messages).

(** ** The CSV exports

    A file is the list of the rows written to it, a row the list of the
    values handed to [writerow].  [self.equipment.items()] is given as
    the list of the pairs it yields.  The files are opened with the
    strict [utf-8] codec: a row whose text cannot be encoded (it holds a
    string with a lone surrogate, which [json.loads] accepts) makes
    [writerow] raise [UnicodeEncodeError] and is not written.  Which rows
    can be encoded, and what [json.dumps] returns, are parameters. *)

Definition csv_file : Type := list (list json).

(** [open(path, "w")]: the file starts empty. *)
Definition open_w : M csv_file unit := modify (fun _ => []).

(** The entries as [build_master_tables] stores them. *)
Definition equipment_dict (e : Equipment.t) : json :=
  JObj [("id", Equipment.id e); ("slot", Equipment.slot e);
        ("set", Equipment.set e); ("rarity", Equipment.rarity e);
        ("level", Equipment.level e);
        ("mainAttribute", Equipment.mainAttribute e);
        ("subAttributes", Equipment.subAttributes e)].


Section Exports.
(** [json.dumps(v, ensure_ascii=False)]. *)
Variable dumps : json -> string.
(** The text of a row can be encoded as UTF-8. *)
Variable encodes : list json -> bool.

Definition writerow (row : list json) : M csv_file unit :=
  if encodes row then modify (fun f => f ++ [row])
  else raise UnicodeEncodeError.

Definition equipment_csv_header : list json :=
  map JStr ["heroName"; "equipmentId"; "slot"; "set"; "rarity"; "level";
            "mainAttribute_stat"; "mainAttribute_value"; "subAttributes"].

Definition equipment_row (hero_name : string) (eq : json) : result (list json) :=
  (main_attr <~ Py.get eq "mainAttribute" (JObj []) ;;
   stat_boost <~ Py.get main_attr "statBoost" (JObj []) ;;
   main_stat <~ Py.get stat_boost "unitStatDefinitionId" JNull ;;
   main_value <~ Py.get stat_boost "value" JNull ;;
   subs <~ Py.get eq "subAttributes" (JList []) ;;
   let sub_json := dumps subs in
   id <~ Py.get eq "id" JNull ;;
   slot <~ Py.get eq "slot" JNull ;;
   set <~ Py.get eq "set" JNull ;;
   rarity <~ Py.get eq "rarity" JNull ;;
   level <~ Py.get eq "level" JNull ;;
   Ok [JStr hero_name; id; slot; set; rarity; level;
       main_stat; main_value; JStr sub_json]).

Definition export_equipment_csv (items : list (string * list Equipment.t))
  : M csv_file unit :=
  open_w ;;
  writerow equipment_csv_header ;;
  for_each items (fun p =>
    for_each p.2 (fun eq =>
      row <- lift (equipment_row p.1 (equipment_dict eq)) ;;
      writerow row)).



End Exports.

(** ** The summary of the dashboard and of [main] *)

(** [sum(len(v) for v in d.values())]. *)
Definition total_items {A} (d : gmap string (list A)) : nat :=
  sum_list (length <$> (map_to_list d).*2).

(** [self.player_info]: the empty mapping of [__init__] or the mapping
    the build assigns. *)
Definition profile_dict (info : option Profile.t) : json :=
  match info with
  | None => JObj []
  | Some p =>
      JObj [("id", Profile.id p); ("displayName", Profile.displayName p);
            ("username", Profile.username p); ("allianceId", Profile.allianceId p)]
  end.

(** [player_name] of [create_summary_dashboard]: the operands of [or] are
    evaluated from the left, up to the first truthy one. *)
Definition dashboard_player_name (info : json) : result json :=
  (display <~ Py.get info "displayName" JNull ;;
   if Py.truthy display then Ok display
   else (username <~ Py.get info "username" JNull ;;
         if Py.truthy username then Ok username else Ok (JStr "Unknown"))).

(** The player line of the final summary of [main]. *)
Definition summary_player_name (info : json) : result json :=
  Py.get info "displayName" (JStr "Unknown").

(** ** Readable building names *)

(** [s.split(sep)] for a separator of one character. *)
Fixpoint split_on (sep : ascii) (s : string) : list string :=
  match s with
  | EmptyString => [EmptyString]
  | String c s' =>
      if Ascii.eqb c sep then EmptyString :: split_on sep s'
      else match split_on sep s' with
           | part :: parts => String c part :: parts
           | [] => [String c EmptyString]
           end
  end.

(** [_format_building_name]. *)
Definition format_building_name (raw_key : string) : string :=
  let key := PyStr.replace raw_key "building.Building_" EmptyString in
  let parts := split_on "_" key in
  if (length parts <? 4)%nat then raw_key
  else
    let era := nth 0 parts EmptyString in
    let name := nth 1 parts EmptyString in
    let variant := nth 2 parts EmptyString in
    let level := nth 3 parts EmptyString in
    let era :=
      PyStr.replace
        (PyStr.replace
           (PyStr.replace
              (PyStr.replace
                 (PyStr.replace
                    (PyStr.replace
                       (PyStr.replace era "AgeOfTheFranks" "Age of the Franks")
                       "FeudalAge" "Feudal Age")
                    "IberianEra" "Iberian Era")
                 "MinoanEra" "Minoan Era")
              "ClassicGreece" "Classic Greece")
           "BronzeAge" "Bronze Age")
        "TreasureHunt" "Treasure Hunt" in
    let name :=
      PyStr.replace
        (PyStr.replace
           (PyStr.replace
              (PyStr.replace
                 (PyStr.replace
                    (PyStr.replace
                       (PyStr.replace
                          (PyStr.replace name "Home" "Home")
                          "Workshop" "Workshop")
                       "Barracks" "Barracks")
                    "CultureSite" "Culture Site")
                 "Farm" "Farm")
              "Special" "Special")
           "Collectable" "Collectable")
        "City" "City" in
    let variant :=
      PyStr.replace
        (PyStr.replace
           (PyStr.replace
              (PyStr.replace
                 (PyStr.replace
                    (PyStr.replace variant "Small" "Small")
                    "Average" "Average")
                 "Moderate" "Moderate")
              "Large" "Large")
           "Compact" "Compact")
        "Little" "Little" in
    era +:+ " – " +:+ name +:+ " " +:+ variant +:+ " (Level " +:+ level +:+ ")".

(** ** What the properties are stated with *)

(** [f] reads an attribute that [m] never assigns, however [m] ends. *)
Definition preserves {St A B} (f : St -> A) (m : M St B) : Prop :=
  forall s, f (fst (m s)) = f s.

(** The discriminator of a record, when the record is a mapping and the
    discriminator a string (the empty string when it is absent). *)
Definition dto_type (msg : json) : option string :=
  match Py.get msg "@type" (JStr EmptyString) with
  | Ok (JStr s) => Some s
  | _ => None
  end.

(** The record's discriminator ends with [suf]. *)
Definition has_suffix (suf : string) (msg : json) : bool :=
  match dto_type msg with
  | Some s => PyStr.endswith s suf
  | None => false
  end.

(** [msg["allEquipment"]] when [msg] has the key. *)
Definition all_equipment (msg : json) : option json :=
  match msg with
  | JObj kv => Py.assoc "allEquipment" kv
  | _ => None
  end.

(** Where a record with discriminator [s] goes: the first kind that matches. *)
Definition route (s : string) (msg : json) (b : Buckets) : Buckets :=
  if PyStr.endswith s "PlayerDTO" then set_raw_playerdto msg b
  else if PyStr.endswith s "HeroPush" then set_raw_heropush msg b
  else if PyStr.endswith s "AllEquipmentUnitDataDTO" then
    match all_equipment msg with
    | Some v => append_raw_equipment_lists v b
    | None => b
    end
  else if PyStr.endswith s "RelicUnitDataDTO" then append_raw_relic_lists msg b
  else if PyStr.endswith s "CityDTO" then append_raw_cities msg b
  else if PyStr.endswith s "AllianceMembersResponse" then set_raw_alliance_members msg b
  else if PyStr.endswith s "AllianceCityDTO" then append_raw_alliance_cities msg b
  else b.

(** The buckets after one record; a record that makes the classifier
    raise leaves them as they are. *)
Definition route_message (b : Buckets) (msg : json) : Buckets :=
  match dto_type msg with
  | Some s => route s msg b
  | None => b
  end.

(** [v.get(k, d)] when [v] is a mapping; [d] for anything else. *)
Definition field_or (k : string) (d : json) (v : json) : json :=
  match v with
  | JObj kv => default d (Py.assoc k kv)
  | _ => d
  end.

Definition field (k : string) (v : json) : json := field_or k JNull v.

Definition is_mapping (v : json) : bool :=
  match v with JObj _ => true | _ => false end.

(** One kept entry joins the list under its display name. *)
Definition add_under {A} (d : gmap string (list A)) (p : string * A) : gmap string (list A) :=
  append_under p.1 p.2 (ensure_key p.1 d).

(** The entries of [kvs] under the name [n], in order. *)
Definition select {A} (n : string) (kvs : list (string * A)) : list A :=
  omap (fun p : string * A => if String.eqb p.1 n then Some p.2 else None) kvs.

(** A key of the mapping always has at least one entry. *)
Definition nonempty {A} (l : list A) : option (list A) :=
  match l with [] => None | _ => Some l end.

(** What one iteration of the equipment loop computes before it touches
    [self.equipment]: the display name and the entry to append, if any. *)
Definition equipment_step (hero_set : list json) (eq : json)
  : result (option (string * Equipment.t)) :=
  (hero_def <~ Py.get eq "equippedOnHeroDefinitionId" JNull ;;
   keep <~ owned hero_def hero_set ;;
   if keep then
     hero_name <~ Py.replace hero_def "hero." EmptyString ;;
     entry <~ equipment_entry eq ;;
     Ok (Some (hero_name, entry))
   else Ok None).

(** The same for one iteration of the relic loop. *)
Definition relic_step (hero_set : list json) (relic_entry : json)
  : result (option (string * Relic.t)) :=
  (relic_def <~ Py.get relic_entry "relicDefinitionId" JNull ;;
   level <~ Py.get relic_entry "level" JNull ;;
   age <~ Py.get relic_entry "ageDefinitionId" JNull ;;
   has_unit <~ Py.contains "supportingUnit" relic_entry ;;
   hero_def <~ (if has_unit then
                  unit <~ Py.getitem relic_entry "supportingUnit" ;;
                  Py.get unit "definitionId" JNull
                else Ok JNull) ;;
   keep <~ owned hero_def hero_set ;;
   if keep then
     hero_name <~ Py.replace hero_def "hero." EmptyString ;;
     Ok (Some (hero_name, Relic.mk relic_def level age))
   else Ok None).

(** The assignments that end an iteration. *)
Definition store_equipment (o : option (string * Equipment.t)) (m : Model) : Model :=
  match o with
  | Some p => set_equipment (add_under (equipment m) p) m
  | None => m
  end.

Definition store_relic (o : option (string * Relic.t)) (m : Model) : Model :=
  match o with
  | Some p => set_relics (add_under (relics m) p) m
  | None => m
  end.

(** The join, read off a record that is a mapping. *)
Definition kept (hero_set : list json) (hero_def : json) : bool :=
  Py.truthy hero_def && existsb (Py.eqb hero_def) hero_set.

Definition display_name (hero_def : json) : string :=
  match hero_def with
  | JStr s => PyStr.replace s "hero." EmptyString
  | _ => EmptyString
  end.

Definition equipped_on (eq : json) : json := field "equippedOnHeroDefinitionId" eq.

Definition supporting_hero (relic_entry : json) : json :=
  match relic_entry with
  | JObj kv =>
      match Py.assoc "supportingUnit" kv with
      | Some unit => field "definitionId" unit
      | None => JNull
      end
  | _ => JNull
  end.

Definition equipment_of (eq : json) : Equipment.t :=
  Equipment.mk (field "id" eq) (field "equipmentSlotTypeDefinitionId" eq)
    (field "equipmentSetDefinitionId" eq) (field "equipmentRarityDefinitionId" eq)
    (field "level" eq) (field "mainAttribute" eq)
    (field_or "subAttributes" (JList []) eq).

Definition relic_of (relic_entry : json) : Relic.t :=
  Relic.mk (field "relicDefinitionId" relic_entry) (field "level" relic_entry)
    (field "ageDefinitionId" relic_entry).

Definition equipment_kept (hero_set : list json) (eq : json) : option (string * Equipment.t) :=
  if kept hero_set (equipped_on eq)
  then Some (display_name (equipped_on eq), equipment_of eq)
  else None.

Definition relic_kept (hero_set : list json) (r : json) : option (string * Relic.t) :=
  if kept hero_set (supporting_hero r)
  then Some (display_name (supporting_hero r), relic_of r)
  else None.

(** The lists the loops of the builder run over. *)
Definition profile_result (b : Buckets) : result Profile.t :=
  if Py.truthy (raw_playerdto b) then profile_entry (raw_playerdto b)
  else Ok null_profile.

Definition unlocked_heroes (b : Buckets) : result (list json) :=
  (unlocked <~ Py.get (raw_heropush b) "unlocked" (JList []) ;; Py.iter unlocked).

Definition deck_list (b : Buckets) : result (list json) :=
  (deck <~ Py.get (raw_heropush b) "deck" (JList []) ;; Py.iter deck).

Definition unlocked_cities (b : Buckets) : result (list json) :=
  (cs <~ (if Py.truthy (raw_playerdto b)
          then Py.get (raw_playerdto b) "unlockedCities" (JList [])
          else Ok (JList [])) ;;
   Py.iter cs).

Definition member_list (b : Buckets) : result (list json) :=
  if Py.truthy (raw_alliance_members b)
  then (members <~ Py.get (raw_alliance_members b) "members" (JList []) ;;
        Py.iter members)
  else Ok [].

(** The equipment entries of all groups, in order. *)
Definition equipment_entries (b : Buckets) : result (list json) :=
  (gs <~ rmap Py.iter (raw_equipment_lists b) ;; Ok (concat gs)).

Definition equipment_list_of (msg : json) : option json :=
  if has_suffix "AllEquipmentUnitDataDTO" msg then all_equipment msg else None.

(** The stream of the misrouted alliance city: one [AllianceCityDTO]
    record and a [HeroPush]. *)
Definition alliance_city_record : json :=
  JObj [("@type", JStr "type.googleapis.com/AllianceCityDTO");
        ("id", JNum 5); ("playerId", JNum 9); ("definitionId", JStr "City_Capital")].

Definition heropush_record (unlocked deck : list json) : json :=
  JObj [("@type", JStr "type.googleapis.com/HeroPush");
        ("unlocked", JList unlocked); ("deck", JList deck)].

(** The last record of a kind in a stream. *)
Definition last_of_kind (suf : string) (msgs : list json) : option json :=
  last (List.filter (has_suffix suf) msgs).

(** The profile read off a Player record. *)
Definition profile_of (p : json) : Profile.t :=
  Profile.mk (field "id" p) (field "displayName" p) (field "username" p)
    (field "allianceId" p).

(** The exceptions Python raises by itself, as opposed to the one
    [build_master_tables] raises with [raise Exception(...)]. *)
Definition builtin (e : exn) : Prop :=
  match e with
  | Exception _ => False
  | _ => True
  end.

Definition rsafe {A} (r : result A) : Prop := forall e, r = Raise e -> builtin e.

Definition msafe {St A} (m : M St A) : Prop :=
  forall s s' e, m s = (s', Raise e) -> builtin e.

Definition missing_heropush : exn :=
  Exception "No HeroPush message found! Cannot build hero list.".

(** The Player bucket as the classifier leaves it: empty or a mapping. *)
Definition player_bucket_classified (b : Buckets) : Prop :=
  raw_playerdto b = JNull \/ is_mapping (raw_playerdto b) = true.

Definition built_profile (b : Buckets) : Profile.t :=
  if Py.truthy (raw_playerdto b) then profile_of (raw_playerdto b) else null_profile.

Fixpoint string_drop (n : nat) (s : string) : string :=
  match n, s with
  | S k, String _ s' => string_drop k s'
  | _, _ => s
  end.

(** The display form in the spec's words: the identifier with the
    namespace prefix [p] stripped, when it starts with it. *)
Definition strip_prefix (p s : string) : string :=
  if PyStr.startswith s p then string_drop (String.length p) s else s.

(** What a deck element becomes. *)
Definition deck_built (d : json) (e : Deck.t) : Prop :=
  Deck.definitionId e = field "definitionId" d /\
  exists ids,
    Py.iter (field_or "heroDefinitionId" (JList []) d) = Ok (map JStr ids) /\
    Deck.heroes e = map (fun s => PyStr.replace s "hero." EmptyString) ids.

(** The entry built from [e] when it is kept and grouped under [name]. *)
Definition kept_under {A} (hero_set : list json) (name : string)
    (ref : json -> json) (item : json -> A) (e : json) : option A :=
  if kept hero_set (ref e) && String.eqb (display_name (ref e)) name
  then Some (item e) else None.

Definition is_null (v : json) : bool :=
  match v with JNull => true | _ => false end.

(** An equipment entry whose equipped-on identifier is absent or null. *)
Definition equipment_without_hero (e : json) : bool :=
  is_mapping e && is_null (equipped_on e).

(** A relic whose supporting unit is absent, or has an absent or null
    definition identifier. *)
Definition relic_without_hero (r : json) : bool :=
  match r with
  | JObj kv =>
      match Py.assoc "supportingUnit" kv with
      | None => true
      | Some unit => is_mapping unit && is_null (field "definitionId" unit)
      end
  | _ => false
  end.













(** The entries read off an element that is a mapping. *)
Definition hero_of (h : json) : Hero.t :=
  Hero.mk (field "heroDefinitionId" h)
    (if Py.truthy (field "heroDefinitionId" h)
     then JStr (display_name (field "heroDefinitionId" h)) else JNull)
    (field "level" h) (field "ascensionLevel" h) (field "abilityLevel" h)
    (field "awakeningLevel" h) (field "abilityMasteryPoints" h)
    (field "unlockedAt" h).

Definition city_of (c : json) : City.t :=
  City.mk (field "id" c) (field "definitionId" c)
    (field_or "placedBuildingAmounts" (JObj []) c)
    (field_or "buildingLimits" (JObj []) c).

Definition alliance_member_of (m : json) : AllianceMember.t :=
  AllianceMember.mk (field "playerId" m) (field "playerName" m)
    (field "level" m) (field "power" m) (field "ageDefinitionId" m).

(** An equipment entry the CSV export can write: its main attribute is
    a mapping whose [statBoost] is absent or a mapping. *)
Definition exportable (e : Equipment.t) : bool :=
  is_mapping (Equipment.mainAttribute e) &&
  is_mapping (field_or "statBoost" (JObj []) (Equipment.mainAttribute e)).

(** The row of an exportable entry. *)
Definition equipment_row_of (dumps : json -> string) (p : string * Equipment.t)
  : list json :=
  let stat_boost := field_or "statBoost" (JObj []) (Equipment.mainAttribute p.2) in
  [JStr p.1; Equipment.id p.2; Equipment.slot p.2; Equipment.set p.2;
   Equipment.rarity p.2; Equipment.level p.2;
   field "unitStatDefinitionId" stat_boost; field "value" stat_boost;
   JStr (dumps (Equipment.subAttributes p.2))].

(** The entries of a mapping of lists, each with its key. *)
Definition entries_of {A} (items : list (string * list A)) : list (string * A) :=
  flat_map (fun p => map (pair p.1) p.2) items.


(** The eras written out. *)
Definition readable_era (era : string) : string :=
  PyStr.replace
    (PyStr.replace
       (PyStr.replace
          (PyStr.replace
             (PyStr.replace
                (PyStr.replace
                   (PyStr.replace era "AgeOfTheFranks" "Age of the Franks")
                   "FeudalAge" "Feudal Age")
                "IberianEra" "Iberian Era")
             "MinoanEra" "Minoan Era")
          "ClassicGreece" "Classic Greece")
       "BronzeAge" "Bronze Age")
    "TreasureHunt" "Treasure Hunt".

(** The occurrences of a character in a string. *)
Fixpoint count_char (c : ascii) (s : string) : nat :=
  match s with
  | EmptyString => O
  | String a s' => ((if Ascii.eqb a c then 1 else 0) + count_char c s')%nat
  end.

(** The buckets with another CityRecords bucket. *)
Definition with_raw_cities (rc : list json) (b : Buckets) : Buckets :=
  mkBuckets (raw_playerdto b) (raw_heropush b) (raw_equipment_lists b)
    (raw_relic_lists b) rc (raw_alliance_members b) (raw_alliance_cities b).


(** * Properties *)

(** ** Suffixes *)

Module PyStrFacts.
Import PyStr.

Lemma endswith_refl s : endswith s s = true.
Proof. destruct s; cbn [endswith]; now rewrite String.eqb_refl. Qed.

Lemma endswith_cons c s suf : endswith s suf = true -> endswith (String c s) suf = true.
Proof. intros H. cbn [endswith]. rewrite H. apply orb_true_r. Qed.

Lemma endswith_length s suf :
  endswith s suf = true -> (String.length suf <= String.length s)%nat.
Proof.
  induction s as [|c s IH]; cbn [endswith]; intros H.
  - rewrite orb_false_r in H. apply String.eqb_eq in H. subst. simpl. lia.
  - apply orb_true_iff in H as [H|H].
    + apply String.eqb_eq in H. subst. simpl. lia.
    + specialize (IH H). simpl. lia.
Qed.

Lemma endswith_trans s a b :
  endswith s a = true -> endswith a b = true -> endswith s b = true.
Proof.
  induction s as [|c s IH]; cbn [endswith]; intros Ha Hb.
  - rewrite orb_false_r in Ha. apply String.eqb_eq in Ha. subst a.
    rewrite <- Hb. destruct b; reflexivity.
  - apply orb_true_iff in Ha as [Ha|Ha].
    + apply String.eqb_eq in Ha. subst a. exact Hb.
    + rewrite (IH Ha Hb). apply orb_true_r.
Qed.

(** Two suffixes of one string: the shorter is a suffix of the longer. *)
Lemma endswith_comparable s a b :
  endswith s a = true -> endswith s b = true ->
  (String.length b <= String.length a)%nat -> endswith a b = true.
Proof.
  induction s as [|c s IH]; cbn [endswith]; intros Ha Hb Hlen.
  - rewrite orb_false_r in Ha, Hb.
    apply String.eqb_eq in Ha, Hb. subst. reflexivity.
  - apply orb_true_iff in Ha as [Ha|Ha].
    + apply String.eqb_eq in Ha. subst a. cbn [endswith]. exact Hb.
    + apply orb_true_iff in Hb as [Hb|Hb].
      * apply String.eqb_eq in Hb. subst b.
        apply endswith_length in Ha. simpl in Hlen. lia.
      * now apply IH.
Qed.

(** Kinds of which neither name ends with the other exclude each other. *)
Lemma endswith_exclusive s a b :
  endswith a b = false -> endswith b a = false ->
  endswith s a = true -> endswith s b = false.
Proof.
  intros Hab Hba Ha. destruct (endswith s b) eqn:Hb; [|reflexivity].
  destruct (le_lt_dec (String.length b) (String.length a)) as [Hl|Hl].
  - rewrite (endswith_comparable s a b Ha Hb Hl) in Hab. discriminate.
  - assert (Hl' : (String.length a <= String.length b)%nat) by lia.
    rewrite (endswith_comparable s b a Hb Ha Hl') in Hba. discriminate.
Qed.

(** Every [...AllianceCityDTO] name is a [...CityDTO] name. *)
Lemma alliance_city_is_city s :
  endswith s "AllianceCityDTO" = true -> endswith s "CityDTO" = true.
Proof. intros H. now apply (endswith_trans s "AllianceCityDTO"). Qed.

End PyStrFacts.

(** ** Sequencing, loops and untouched attributes *)

Section StateExnFacts.
Context {St : Type}.

Lemma bind_ok_inv {A B} (m : M St A) (k : A -> M St B) s s' y :
  bind m k s = (s', Ok y) ->
  exists s1 x, m s = (s1, Ok x) /\ k x s1 = (s', Ok y).
Proof.
  unfold bind. destruct (m s) as [s1 [x|e]]; intros H.
  - now exists s1, x.
  - discriminate.
Qed.

Lemma bind_ok {A B} (m : M St A) (k : A -> M St B) s s1 x :
  m s = (s1, Ok x) -> bind m k s = k x s1.
Proof. unfold bind. now intros ->. Qed.

Lemma bind_raise {A B} (m : M St A) (k : A -> M St B) s s1 e :
  m s = (s1, Raise e) -> bind m k s = (s1, Raise e).
Proof. unfold bind. now intros ->. Qed.

Lemma bind_assoc {A B C} (m : M St A) (k : A -> M St B) (k' : B -> M St C) s :
  bind (bind m k) k' s = bind m (fun x => bind (k x) k') s.
Proof. unfold bind. destruct (m s) as [s1 [x|e]]; reflexivity. Qed.

Lemma bind_ext {A B} (m : M St A) (k k' : A -> M St B) s :
  (forall x s1, k x s1 = k' x s1) -> bind m k s = bind m k' s.
Proof. intros H. unfold bind. destruct (m s) as [s1 [x|e]]; auto. Qed.

Lemma for_each_app {A} (xs ys : list A) (body : A -> M St unit) s :
  for_each (xs ++ ys) body s = bind (for_each xs body) (fun _ => for_each ys body) s.
Proof.
  revert s. induction xs as [|x xs IH]; intros s; simpl.
  - reflexivity.
  - rewrite bind_assoc. apply bind_ext. intros _ s1. apply IH.
Qed.

Lemma for_each_ext {A} (xs : list A) (body body' : A -> M St unit) s :
  (forall x s1, body x s1 = body' x s1) -> for_each xs body s = for_each xs body' s.
Proof.
  intros H. revert s. induction xs as [|x xs IH]; intros s; simpl; [reflexivity|].
  unfold bind. rewrite H. destruct (body' x s) as [s1 [[]|e]]; auto.
Qed.

(** An iteration that changes nothing can be left out. *)
Lemma for_each_skip {A} (xs ys : list A) (x : A) (body : A -> M St unit) s :
  (forall s1, body x s1 = (s1, Ok tt)) ->
  for_each (xs ++ x :: ys) body s = for_each (xs ++ ys) body s.
Proof.
  intros H. rewrite !for_each_app. apply bind_ext. intros _ s1.
  simpl. unfold bind. now rewrite H.
Qed.

(** A loop that builds an entry and stores it: when it ends normally,
    every entry was built and all were stored in order. *)
Lemma for_each_store_ok {A E} (f : A -> result E) (g : E -> St -> St) xs s s' :
  for_each xs (fun x => bind (lift (f x)) (fun e => modify (g e))) s = (s', Ok tt) <->
  exists es, rmap f xs = Ok es /\ s' = fold_left (fun s e => g e s) es s.
Proof.
  revert s. induction xs as [|x xs IH]; intros s; simpl.
  - unfold ret. split.
    + intros [= <-]. now exists [].
    + intros (es & [= <-] & ->). reflexivity.
  - unfold bind at 1 2, lift, modify. unfold rbind at 1.
    destruct (f x) as [e|err]; simpl.
    + rewrite IH. split.
      * intros (es & -> & ->). now exists (e :: es).
      * intros (es & Hes & ->). unfold rbind in Hes.
        destruct (rmap f xs) as [es'|]; [|discriminate].
        injection Hes as <-. now exists es'.
    + split; [discriminate|]. intros (es & [=] & _).
Qed.

Lemma preserves_ret {A B} (f : St -> A) (x : B) : preserves f (ret x).
Proof. now intros s. Qed.

Lemma preserves_lift {A B} (f : St -> A) (r : result B) : preserves f (lift r).
Proof. now intros s. Qed.

Lemma preserves_raise {A B} (f : St -> A) e : preserves f (@raise St B e).
Proof. now intros s. Qed.

Lemma preserves_gets {A B} (f : St -> A) (g : St -> B) : preserves f (gets g).
Proof. now intros s. Qed.

Lemma preserves_modify {A} (f : St -> A) (g : St -> St) :
  (forall s, f (g s) = f s) -> preserves f (modify g).
Proof. intros H s. apply H. Qed.

Lemma preserves_bind {A B C} (f : St -> A) (m : M St B) (k : B -> M St C) :
  preserves f m -> (forall x, preserves f (k x)) -> preserves f (bind m k).
Proof.
  intros Hm Hk s. unfold bind. specialize (Hm s).
  destruct (m s) as [s1 [x|e]]; simpl in *.
  - now rewrite Hk.
  - exact Hm.
Qed.

Lemma preserves_for_each {A B} (f : St -> A) (xs : list B) (body : B -> M St unit) :
  (forall x, preserves f (body x)) -> preserves f (for_each xs body).
Proof.
  intros H. induction xs as [|x xs IH]; simpl.
  - apply preserves_ret.
  - apply preserves_bind; auto.
Qed.

Lemma preserves_if {A B} (f : St -> A) (c : bool) (m1 m2 : M St B) :
  preserves f m1 -> preserves f m2 -> preserves f (if c then m1 else m2).
Proof. now destruct c. Qed.
End StateExnFacts.

Ltac preserves_tac :=
  repeat first
    [ apply preserves_bind; [|intros ?]
    | apply preserves_for_each; intros ?
    | apply preserves_if
    | apply preserves_ret
    | apply preserves_lift
    | apply preserves_raise
    | apply preserves_gets
    | apply preserves_modify; intros ?; reflexivity ].

(** ** The classifier as a routing function *)

Local Arguments PyStr.endswith : simpl never.

Lemma dto_type_mapping msg s :
  dto_type msg = Some s -> exists kv, msg = JObj kv.
Proof. destruct msg; try discriminate. eauto. Qed.

Lemma classify_message_typed msg s b :
  dto_type msg = Some s -> classify_message msg b = (route s msg b, Ok tt).
Proof.
  intros H. destruct (dto_type_mapping _ _ H) as [kv ->].
  unfold dto_type in H. unfold classify_message, route, bind, lift.
  destruct (Py.get (JObj kv) "@type" (JStr EmptyString)) as [[| | |s'| |]|]; try discriminate.
  injection H as ->. cbn [Py.endswith].
  repeat match goal with
         | |- context [PyStr.endswith s ?suf] => destruct (PyStr.endswith s suf)
         end; try reflexivity.
  cbn [Py.contains Py.getitem all_equipment].
  destruct (Py.assoc "allEquipment" kv); reflexivity.
Qed.

Lemma classify_message_untyped msg b :
  dto_type msg = None -> classify_message msg b = (b, Raise AttributeError).
Proof.
  unfold dto_type, classify_message, bind, lift. intros H.
  destruct (Py.get msg "@type" (JStr EmptyString)) as [[| | |s'| |]|e] eqn:E;
    try discriminate; cbn [Py.endswith]; try reflexivity.
  destruct msg; simpl in E; try discriminate; injection E as <-; reflexivity.
Qed.

Lemma classify_message_route msg b :
  fst (classify_message msg b) = route_message b msg.
Proof.
  unfold route_message. destruct (dto_type msg) as [s|] eqn:E.
  - now rewrite (classify_message_typed _ _ _ E).
  - now rewrite (classify_message_untyped _ _ E).
Qed.

(** Kinds that exclude one another, and the one that does not. *)
Ltac exclusive_kinds :=
  match goal with
  | H1 : PyStr.endswith ?s ?a = true, H2 : PyStr.endswith ?s ?b = true |- _ =>
      let H := fresh in
      pose proof (PyStrFacts.endswith_exclusive s a b eq_refl eq_refl H1) as H;
      congruence
  | H1 : PyStr.endswith ?s "AllianceCityDTO" = true,
    H2 : PyStr.endswith ?s "CityDTO" = false |- _ =>
      apply PyStrFacts.alliance_city_is_city in H1; congruence
  end.

Ltac route_cases s :=
  unfold route;
  repeat match goal with
         | |- context [PyStr.endswith s ?suf] =>
             let E := fresh "E" in destruct (PyStr.endswith s suf) eqn:E
         end;
  simpl; try reflexivity; try exclusive_kinds.

Lemma route_raw_playerdto s msg b :
  raw_playerdto (route s msg b) =
  if PyStr.endswith s "PlayerDTO" then msg else raw_playerdto b.
Proof. route_cases s. destruct (all_equipment msg); reflexivity. Qed.

Lemma route_raw_heropush s msg b :
  raw_heropush (route s msg b) =
  if PyStr.endswith s "HeroPush" then msg else raw_heropush b.
Proof. route_cases s. destruct (all_equipment msg); reflexivity. Qed.

Lemma route_raw_alliance_members s msg b :
  raw_alliance_members (route s msg b) =
  if PyStr.endswith s "AllianceMembersResponse" then msg else raw_alliance_members b.
Proof. route_cases s; destruct (all_equipment msg); reflexivity. Qed.

Lemma route_raw_equipment_lists s msg b :
  raw_equipment_lists (route s msg b) =
  raw_equipment_lists b ++
  (if PyStr.endswith s "AllEquipmentUnitDataDTO"
   then option_list (all_equipment msg) else []).
Proof.
  route_cases s; try (symmetry; apply app_nil_r).
  destruct (all_equipment msg); simpl; [reflexivity|symmetry; apply app_nil_r].
Qed.

Lemma route_raw_cities s msg b :
  raw_cities (route s msg b) =
  raw_cities b ++ (if PyStr.endswith s "CityDTO" then [msg] else []).
Proof.
  route_cases s; try (symmetry; apply app_nil_r).
  destruct (all_equipment msg); simpl; symmetry; apply app_nil_r.
Qed.

(** No discriminator reaches the [AllianceCityDTO] branch. *)
Lemma route_raw_alliance_cities s msg b :
  raw_alliance_cities (route s msg b) = raw_alliance_cities b.
Proof. route_cases s. destruct (all_equipment msg); reflexivity. Qed.

(** Folding a step that overwrites or appends. *)
Lemma fold_left_last {A B C} (step : B -> A -> B) (proj : B -> C)
    (P : A -> bool) (val : A -> C) (xs : list A) (b : B) :
  (forall b x, proj (step b x) = if P x then val x else proj b) ->
  proj (fold_left step xs b) = default (proj b) (val <$> last (List.filter P xs)).
Proof.
  intros H. induction xs as [|x xs IH] using rev_ind; [reflexivity|].
  rewrite fold_left_app, List.filter_app. simpl. rewrite H.
  destruct (P x); simpl.
  - now rewrite last_snoc.
  - now rewrite app_nil_r.
Qed.

Lemma fold_left_collect {A B C} (step : B -> A -> B) (proj : B -> list C)
    (g : A -> list C) (xs : list A) (b : B) :
  (forall b x, proj (step b x) = proj b ++ g x) ->
  proj (fold_left step xs b) = proj b ++ List.flat_map g xs.
Proof.
  intros H. revert b. induction xs as [|x xs IH]; intros b; simpl.
  - now rewrite app_nil_r.
  - now rewrite IH, H, <- app_assoc.
Qed.

Lemma classify_stream msgs :
  classify (JList msgs) = for_each msgs classify_message empty_buckets.
Proof. reflexivity. Qed.

(** A stream that classification gets through was routed record by record. *)
Lemma for_each_classify_ok msgs b b' :
  for_each msgs classify_message b = (b', Ok tt) ->
  b' = fold_left route_message msgs b /\ Forall (fun msg => is_Some (dto_type msg)) msgs.
Proof.
  revert b. induction msgs as [|msg msgs IH]; intros b; simpl.
  - intros [= <-]. now split.
  - intros H. apply bind_ok_inv in H as (b1 & [] & Hmsg & Hrest).
    destruct (dto_type msg) as [s|] eqn:E.
    + rewrite (classify_message_typed _ _ _ E) in Hmsg. injection Hmsg as <-.
      destruct (IH _ Hrest) as [-> Hall].
      assert (route_message b msg = route s msg b) as ->
        by (unfold route_message; now rewrite E).
      split; [reflexivity|]. constructor; [now rewrite E|exact Hall].
    + rewrite (classify_message_untyped _ _ E) in Hmsg. discriminate.
Qed.

Lemma for_each_classify_typed msgs b :
  Forall (fun msg => is_Some (dto_type msg)) msgs ->
  for_each msgs classify_message b = (fold_left route_message msgs b, Ok tt).
Proof.
  intros Hall. revert b. induction Hall as [|msg msgs [s E] _ IH]; intros b; simpl.
  - reflexivity.
  - rewrite (bind_ok _ _ _ _ _ (classify_message_typed _ _ _ E)).
    rewrite IH.
    assert (route_message b msg = route s msg b) as ->
      by (unfold route_message; now rewrite E).
    reflexivity.
Qed.

(** ** Reading a record that is a mapping *)

Lemma get_mapping v k d : is_mapping v = true -> Py.get v k d = Ok (field_or k d v).
Proof. destruct v; try discriminate. reflexivity. Qed.

Lemma get_ok_inv v k d x : Py.get v k d = Ok x -> is_mapping v = true /\ x = field_or k d v.
Proof. destruct v; try discriminate. intros [= <-]. now split. Qed.

Lemma rmap_ok_map {A B} (f : A -> result B) (g : A -> B) xs ys :
  (forall x y, f x = Ok y -> y = g x) -> rmap f xs = Ok ys -> ys = map g xs.
Proof.
  intros H. revert ys. induction xs as [|x xs IH]; simpl; intros ys.
  - now intros [= <-].
  - unfold rbind. destruct (f x) as [y|] eqn:E; [|discriminate].
    destruct (rmap f xs) as [ys'|]; [|discriminate].
    intros [= <-]. now rewrite (H _ _ E), (IH _ eq_refl).
Qed.

Lemma rmap_ok_forall {A B} (f : A -> result B) xs ys :
  rmap f xs = Ok ys -> Forall (fun x => exists y, f x = Ok y) xs.
Proof.
  revert ys. induction xs as [|x xs IH]; simpl; intros ys; [constructor|].
  unfold rbind. destruct (f x) as [y|] eqn:E; [|discriminate].
  destruct (rmap f xs) as [ys'|]; [|discriminate].
  intros _. constructor; eauto.
Qed.

Lemma rmap_total {A B} (f : A -> result B) (g : A -> B) xs :
  Forall (fun x => f x = Ok (g x)) xs -> rmap f xs = Ok (map g xs).
Proof.
  induction 1 as [|x xs Hx _ IH]; simpl; [reflexivity|].
  now rewrite Hx, IH.
Qed.

Lemma rmap_app {A B} (f : A -> result B) xs xs' ys ys' :
  rmap f xs = Ok ys -> rmap f xs' = Ok ys' -> rmap f (xs ++ xs') = Ok (ys ++ ys').
Proof.
  revert ys. induction xs as [|x xs IH]; simpl; intros ys.
  - now intros [= <-].
  - unfold rbind at 1 2. destruct (f x) as [y|]; [|discriminate]. simpl.
    destruct (rmap f xs) as [zs|]; [|discriminate].
    intros [= <-] H. now rewrite (IH _ eq_refl H).
Qed.

(** ** Attributes that are lists or mappings of lists *)

Section Lens.
Context {St E : Type} (get : St -> list E) (set : list E -> St -> St).
Hypothesis get_set : forall l s, get (set l s) = l.
Hypothesis set_set : forall l l' s, set l (set l' s) = set l s.

Lemma fold_left_append es s :
  fold_left (fun s e => set (get s ++ [e]) s) es (set (get s) s) = set (get s ++ es) s.
Proof.
  revert s. induction es as [|e es IH] using rev_ind; intros s.
  - simpl. now rewrite app_nil_r.
  - rewrite fold_left_app. simpl. rewrite IH, get_set, set_set.
    now rewrite <- app_assoc.
Qed.

Lemma fold_left_append_from l es s :
  fold_left (fun s e => set (get s ++ [e]) s) es (set l s) = set (l ++ es) s.
Proof.
  rewrite <- (set_set l l s) at 1. rewrite <- (get_set l s) at 1.
  rewrite fold_left_append, get_set. apply set_set.
Qed.
End Lens.

Section Grouping.
Context {A : Type}.

Lemma add_under_lookup (d : gmap string (list A)) k (x : A) n :
  add_under d (k, x) !! n =
  if decide (k = n) then Some (default [] (d !! k) ++ [x]) else d !! n.
Proof.
  unfold add_under, append_under, ensure_key. simpl.
  destruct (decide (k = n)) as [->|Hne].
  - rewrite lookup_alter_eq. destruct (d !! n) as [l|] eqn:E.
    + now rewrite E.
    + now rewrite lookup_insert_eq.
  - rewrite lookup_alter_ne by done. destruct (d !! k); [done|].
    now rewrite lookup_insert_ne.
Qed.

Lemma fold_add_under_lookup (kvs : list (string * A)) (d : gmap string (list A)) n :
  fold_left add_under kvs d !! n =
  match d !! n with
  | Some l0 => Some (l0 ++ select n kvs)
  | None => nonempty (select n kvs)
  end.
Proof.
  revert d. induction kvs as [|[k x] kvs IH]; intros d; simpl.
  - destruct (d !! n); [now rewrite app_nil_r|reflexivity].
  - rewrite IH, add_under_lookup. destruct (decide (k = n)) as [->|Hne].
    + rewrite String.eqb_refl. destruct (d !! n); simpl; [|reflexivity].
      now rewrite <- app_assoc.
    + apply String.eqb_neq in Hne. now rewrite Hne.
Qed.

Lemma group_lookup (kvs : list (string * A)) n :
  fold_left add_under kvs ∅ !! n = nonempty (select n kvs).
Proof. now rewrite fold_add_under_lookup, lookup_empty. Qed.
End Grouping.

(** ** Equipment and relics: what one iteration decides *)

Lemma build_equipment_item_step hs eq m :
  build_equipment_item hs eq m =
  bind (lift (equipment_step hs eq)) (fun o => modify (store_equipment o)) m.
Proof.
  unfold build_equipment_item, equipment_step, bind, lift, modify, ret.
  destruct eq; try reflexivity. cbn [Py.get rbind].
  destruct (owned _ hs) as [[]|]; cbn [rbind]; try reflexivity.
  destruct (Py.replace _ _ _); reflexivity.
Qed.

Lemma build_relic_step hs r m :
  build_relic hs r m =
  bind (lift (relic_step hs r)) (fun o => modify (store_relic o)) m.
Proof.
  unfold build_relic, relic_step, bind, lift, modify, ret.
  destruct r; try reflexivity. cbn [Py.get Py.contains rbind].
  destruct (bool_decide _); cbn [rbind].
  - destruct (Py.getitem _ _) as [u|]; cbn [rbind]; [|reflexivity].
    destruct (Py.get u _ _) as [hero_def|]; cbn [rbind]; [|reflexivity].
    destruct (owned _ hs) as [[]|]; cbn [rbind]; try reflexivity.
    destruct (Py.replace _ _ _); reflexivity.
  - destruct (owned _ hs) as [[]|]; cbn [rbind]; try reflexivity.
Qed.

Lemma owned_ok hero_def hs keep :
  owned hero_def hs = Ok keep -> keep = kept hs hero_def.
Proof.
  unfold owned, kept, Py.in_set.
  destruct (Py.truthy hero_def); [|now intros [= <-]].
  destruct (Py.hashable hero_def); [|discriminate]. now intros [= <-].
Qed.

Lemma replace_ok hero_def n :
  Py.replace hero_def "hero." EmptyString = Ok n -> n = display_name hero_def.
Proof. destruct hero_def; try discriminate. now intros [= <-]. Qed.

Lemma equipment_step_ok hs eq o :
  equipment_step hs eq = Ok o -> o = equipment_kept hs eq.
Proof.
  unfold equipment_step, equipment_kept, equipped_on.
  destruct eq; try discriminate. cbn [Py.get rbind field field_or].
  destruct (owned _ hs) as [keep|] eqn:E; [|discriminate]. cbn [rbind].
  rewrite <- (owned_ok _ _ _ E). destruct keep; [|now intros [= <-]].
  destruct (Py.replace _ _ _) as [n|] eqn:R; [|discriminate].
  rewrite (replace_ok _ _ R). now intros [= <-].
Qed.

Lemma relic_step_ok hs r o :
  relic_step hs r = Ok o -> o = relic_kept hs r.
Proof.
  unfold relic_step, relic_kept, supporting_hero.
  destruct r; try discriminate. cbn [Py.get Py.contains Py.getitem rbind].
  destruct (Py.assoc "supportingUnit" kv) as [u|]; cbn [bool_decide rbind].
  - simpl. destruct (Py.get u _ _) as [hero_def|] eqn:G; [|discriminate].
    apply get_ok_inv in G as [_ ->]. fold (field "definitionId" u). cbn [rbind].
    destruct (owned _ hs) as [keep|] eqn:E; [|discriminate]. cbn [rbind].
    rewrite <- (owned_ok _ _ _ E). destruct keep; [|now intros [= <-]].
    destruct (Py.replace _ _ _) as [n|] eqn:R; [|discriminate].
    rewrite (replace_ok _ _ R). now intros [= <-].
  - simpl. now intros [= <-].
Qed.

(** ** Each step of the builder, when it ends normally *)

Section StepFacts.
Context {St : Type}.

Lemma bind_ret {A B} (x : A) (k : A -> M St B) s : bind (ret x) k s = k x s.
Proof. reflexivity. Qed.

Lemma bind_modify {B} (g : St -> St) (k : unit -> M St B) s :
  bind (modify g) k s = k tt (g s).
Proof. reflexivity. Qed.

Lemma bind_gets {A B} (f : St -> A) (k : A -> M St B) s :
  bind (gets f) k s = k (f s) s.
Proof. reflexivity. Qed.

Lemma bind_lift_ok {A B} (x : A) (k : A -> M St B) s :
  bind (lift (Ok x)) k s = k x s.
Proof. reflexivity. Qed.

Lemma bind_lift_ok_inv {A B} (r : result A) (k : A -> M St B) s s' y :
  bind (lift r) k s = (s', Ok y) -> exists x, r = Ok x /\ k x s = (s', Ok y).
Proof. destruct r as [x|e]; [|discriminate]. intros H. now exists x. Qed.

Lemma for_each_nested_ok (groups : list json) (body : json -> M St unit) s s' :
  for_each groups (fun g => bind (lift (Py.iter g)) (fun eqs => for_each eqs body)) s
    = (s', Ok tt) <->
  exists gs, rmap Py.iter groups = Ok gs /\ for_each (concat gs) body s = (s', Ok tt).
Proof.
  revert s. induction groups as [|g groups IH]; intros s; simpl.
  - split.
    + intros H. now exists [].
    + now intros (gs & [= <-] & H).
  - rewrite bind_assoc. destruct (Py.iter g) as [eqs|e]; cbn [rbind].
    + rewrite bind_lift_ok. split.
      * intros H. apply bind_ok_inv in H as (s1 & [] & H1 & H2).
        apply IH in H2 as (gs & Hgs & H2). exists (eqs :: gs).
        rewrite Hgs. split; [reflexivity|]. simpl.
        now rewrite for_each_app, (bind_ok _ _ _ _ _ H1).
      * intros (gs & Hgs & H). destruct (rmap Py.iter groups) as [gs'|]; [|discriminate].
        injection Hgs as <-. simpl in H. rewrite for_each_app in H.
        apply bind_ok_inv in H as (s1 & [] & H1 & H2).
        rewrite (bind_ok _ _ _ _ _ H1). apply IH. now exists gs'.
    + split; [discriminate|]. now intros (gs & [=] & _).
Qed.

Context {E : Type} (get : St -> list E) (set : list E -> St -> St).
Hypothesis get_set : forall l s, get (set l s) = l.
Hypothesis set_set : forall l l' s, set l (set l' s) = set l s.

(** [self.xs = []] then [for x in ...: self.xs.append(entry(x))]. *)
Lemma store_loop_ok (f : json -> result E) xs s s' :
  for_each xs (fun x => bind (lift (f x))
                 (fun e => modify (fun s => set (get s ++ [e]) s))) (set [] s)
    = (s', Ok tt) <->
  exists es, rmap f xs = Ok es /\ s' = set es s.
Proof.
  rewrite (for_each_store_ok f (fun e s => set (get s ++ [e]) s)).
  split; intros (es & Hes & ->); exists es; (split; [exact Hes|]).
  - now rewrite (fold_left_append_from get set get_set set_set).
  - now rewrite (fold_left_append_from get set get_set set_set).
Qed.
End StepFacts.

Section ListStep.
Context {St E : Type} (get : St -> list E) (set : list E -> St -> St).
Hypothesis get_set : forall l s, get (set l s) = l.
Hypothesis set_set : forall l l' s, set l (set l' s) = set l s.

Lemma list_step_ok (src : result (list json)) (f : json -> result E) s s' :
  bind (lift src) (fun xs =>
    for_each xs (fun x => bind (lift (f x))
                   (fun e => modify (fun s => set (get s ++ [e]) s)))) (set [] s)
    = (s', Ok tt) <->
  exists xs es, src = Ok xs /\ rmap f xs = Ok es /\ s' = set es s.
Proof.
  split.
  - intros H. apply bind_lift_ok_inv in H as (xs & -> & H).
    apply (store_loop_ok get set get_set set_set) in H as (es & Hes & ->).
    now exists xs, es.
  - intros (xs & es & -> & Hes & ->). rewrite bind_lift_ok.
    apply (store_loop_ok get set get_set set_set). now exists es.
Qed.
End ListStep.

Lemma build_player_info_eq b m :
  build_player_info b m =
  bind (lift (profile_result b)) (fun info => modify (set_player_info (Some info))) m.
Proof.
  unfold build_player_info, profile_result.
  destruct (Py.truthy (raw_playerdto b)); reflexivity.
Qed.

Lemma build_player_info_ok b m m' :
  build_player_info b m = (m', Ok tt) <->
  exists info, profile_result b = Ok info /\ m' = set_player_info (Some info) m.
Proof.
  rewrite build_player_info_eq. split.
  - intros H. apply bind_lift_ok_inv in H as (info & Hinfo & [= <-]). eauto.
  - intros (info & -> & ->). reflexivity.
Qed.

Lemma build_heroes_ok b m m' hs :
  build_heroes b m = (m', Ok hs) <->
  Py.truthy (raw_heropush b) = true /\
  exists unl es, unlocked_heroes b = Ok unl /\ rmap hero_entry unl = Ok es /\
                 m' = set_heroes es m /\
                 Py.set_of (map Hero.heroDefinitionId es) = Ok hs.
Proof.
  unfold build_heroes.
  destruct (Py.truthy (raw_heropush b)); cbn [negb].
  - rewrite bind_ret, bind_modify.
    split.
    + intros H. apply bind_lift_ok_inv in H as (unlocked & Hu & H).
      apply bind_lift_ok_inv in H as (unl & Hunl & H).
      apply bind_ok_inv in H as (s1 & [] & Hloop & H).
      apply (store_loop_ok heroes set_heroes) in Hloop as (es & Hes & ->);
        [|reflexivity|reflexivity].
      rewrite bind_gets in H. unfold lift in H. injection H as <- H.
      split; [reflexivity|]. exists unl, es.
      unfold unlocked_heroes. rewrite Hu. cbn [rbind]. auto.
    + intros (_ & unl & es & Hunl & Hes & -> & Hset).
      unfold unlocked_heroes in Hunl.
      destruct (Py.get (raw_heropush b) "unlocked" (JList [])) as [unlocked|]; [|discriminate].
      cbn [rbind] in Hunl. rewrite bind_lift_ok, Hunl, bind_lift_ok.
      assert (Hloop : for_each unl
                (fun h => entry <- lift (hero_entry h) ;;
                          modify (fun m0 => set_heroes (heroes m0 ++ [entry]) m0))
                (set_heroes [] m) = (set_heroes es m, Ok tt)).
      { apply (store_loop_ok heroes set_heroes); [reflexivity|reflexivity|]. eauto. }
      rewrite (bind_ok _ _ _ _ _ Hloop), bind_gets. unfold lift. simpl. now rewrite Hset.
  - split; [discriminate|]. now intros [? _].
Qed.

Lemma build_decks_ok b m m' :
  build_decks b m = (m', Ok tt) <->
  exists ds es, deck_list b = Ok ds /\ rmap deck_entry ds = Ok es /\ m' = set_decks es m.
Proof.
  rewrite <- (list_step_ok decks set_decks) by reflexivity.
  unfold build_decks, deck_list. rewrite bind_modify.
  destruct (Py.get (raw_heropush b) "deck" (JList [])); reflexivity.
Qed.

Lemma build_cities_ok b m m' :
  build_cities b m = (m', Ok tt) <->
  exists cs es, unlocked_cities b = Ok cs /\ rmap city_entry cs = Ok es /\ m' = set_cities es m.
Proof.
  rewrite <- (list_step_ok cities set_cities) by reflexivity.
  unfold build_cities, unlocked_cities. rewrite bind_modify.
  destruct (Py.truthy (raw_playerdto b)).
  - destruct (Py.get (raw_playerdto b) "unlockedCities" (JList [])); reflexivity.
  - reflexivity.
Qed.

Lemma build_alliance_members_ok b m m' :
  build_alliance_members b m = (m', Ok tt) <->
  exists ms es, member_list b = Ok ms /\ rmap alliance_member_entry ms = Ok es /\
                m' = set_alliance_members es m.
Proof.
  rewrite <- (list_step_ok alliance_members set_alliance_members) by reflexivity.
  unfold build_alliance_members, member_list. rewrite bind_modify.
  destruct (Py.truthy (raw_alliance_members b)).
  - destruct (Py.get (raw_alliance_members b) "members" (JList [])); reflexivity.
  - reflexivity.
Qed.

Lemma build_alliance_cities_ok b m m' :
  build_alliance_cities b m = (m', Ok tt) <->
  exists es, rmap alliance_city_entry (raw_alliance_cities b) = Ok es /\
             m' = set_alliance_cities es m.
Proof.
  unfold build_alliance_cities. rewrite bind_modify.
  apply (store_loop_ok alliance_cities set_alliance_cities); reflexivity.
Qed.

Lemma omap_map_id {A B} (f : A -> option B) (l : list A) :
  omap id (map f l) = omap f l.
Proof.
  induction l as [|x l IH]; [reflexivity|].
  cbn [map omap list_omap]. destruct (f x); simpl; now rewrite <- IH.
Qed.

Lemma fold_store_equipment os m :
  fold_left (fun s o => store_equipment o s) os m =
  set_equipment (fold_left add_under (omap id os) (equipment m)) m.
Proof.
  revert m. induction os as [|[p|] os IH]; intros m; simpl.
  - now destruct m.
  - now rewrite IH.
  - apply IH.
Qed.

Lemma fold_store_relic os m :
  fold_left (fun s o => store_relic o s) os m =
  set_relics (fold_left add_under (omap id os) (relics m)) m.
Proof.
  revert m. induction os as [|[p|] os IH]; intros m; simpl.
  - now destruct m.
  - now rewrite IH.
  - apply IH.
Qed.

Lemma build_equipment_ok b hs m m' :
  build_equipment b hs m = (m', Ok tt) <->
  exists eqs os, equipment_entries b = Ok eqs /\ rmap (equipment_step hs) eqs = Ok os /\
                 m' = set_equipment (fold_left add_under (omap id os) ∅) m.
Proof.
  unfold build_equipment, equipment_entries. rewrite bind_modify, for_each_nested_ok.
  split.
  - intros (gs & Hgs & H). rewrite Hgs. cbn [rbind].
    rewrite (for_each_ext _ _ _ _ (build_equipment_item_step hs)) in H.
    apply for_each_store_ok in H as (os & Hos & ->).
    exists (concat gs), os. rewrite fold_store_equipment. auto.
  - intros (eqs & os & Heqs & Hos & ->).
    destruct (rmap Py.iter (raw_equipment_lists b)) as [gs|]; [|discriminate].
    injection Heqs as <-. exists gs. split; [reflexivity|].
    rewrite (for_each_ext _ _ _ _ (build_equipment_item_step hs)).
    apply for_each_store_ok. exists os. rewrite fold_store_equipment. auto.
Qed.

Lemma build_relics_ok b hs m m' :
  build_relics b hs m = (m', Ok tt) <->
  exists os, rmap (relic_step hs) (raw_relic_lists b) = Ok os /\
             m' = set_relics (fold_left add_under (omap id os) ∅) m.
Proof.
  unfold build_relics. rewrite bind_modify.
  rewrite (for_each_ext _ _ _ _ (build_relic_step hs)).
  rewrite for_each_store_ok. split; intros (os & Hos & ->); exists os;
    rewrite fold_store_relic; auto.
Qed.

(** ** The whole build, when it ends normally *)

Lemma build_master_tables_ok b m0 m :
  build_master_tables b m0 = (m, Ok tt) <->
  exists m1 m2 hs m3 m4 m5 m6 m7,
    build_player_info b m0 = (m1, Ok tt) /\
    build_heroes b m1 = (m2, Ok hs) /\
    build_decks b m2 = (m3, Ok tt) /\
    build_equipment b hs m3 = (m4, Ok tt) /\
    build_relics b hs m4 = (m5, Ok tt) /\
    build_cities b m5 = (m6, Ok tt) /\
    build_alliance_members b m6 = (m7, Ok tt) /\
    build_alliance_cities b m7 = (m, Ok tt).
Proof.
  unfold build_master_tables. split.
  - intros H.
    apply bind_ok_inv in H as (m1 & [] & H1 & H).
    apply bind_ok_inv in H as (m2 & hs & H2 & H).
    apply bind_ok_inv in H as (m3 & [] & H3 & H).
    apply bind_ok_inv in H as (m4 & [] & H4 & H).
    apply bind_ok_inv in H as (m5 & [] & H5 & H).
    apply bind_ok_inv in H as (m6 & [] & H6 & H).
    apply bind_ok_inv in H as (m7 & [] & H7 & H).
    exists m1, m2, hs, m3, m4, m5, m6, m7. tauto.
  - intros (m1 & m2 & hs & m3 & m4 & m5 & m6 & m7 & H1 & H2 & H3 & H4 & H5 & H6 & H7 & H8).
    rewrite (bind_ok _ _ _ _ _ H1), (bind_ok _ _ _ _ _ H2), (bind_ok _ _ _ _ _ H3),
      (bind_ok _ _ _ _ _ H4), (bind_ok _ _ _ _ _ H5), (bind_ok _ _ _ _ _ H6),
      (bind_ok _ _ _ _ _ H7). exact H8.
Qed.

(** A build that ends normally leaves a model that is a function of the
    buckets alone; it ends normally exactly when every entry can be built. *)
Lemma build_master_tables_model b m0 m :
  build_master_tables b m0 = (m, Ok tt) <->
  Py.truthy (raw_heropush b) = true /\
  exists info unl hes hs ds des eqs eos ros cs ces ms mes aces,
    profile_result b = Ok info /\
    unlocked_heroes b = Ok unl /\ rmap hero_entry unl = Ok hes /\
    Py.set_of (map Hero.heroDefinitionId hes) = Ok hs /\
    deck_list b = Ok ds /\ rmap deck_entry ds = Ok des /\
    equipment_entries b = Ok eqs /\ rmap (equipment_step hs) eqs = Ok eos /\
    rmap (relic_step hs) (raw_relic_lists b) = Ok ros /\
    unlocked_cities b = Ok cs /\ rmap city_entry cs = Ok ces /\
    member_list b = Ok ms /\ rmap alliance_member_entry ms = Ok mes /\
    rmap alliance_city_entry (raw_alliance_cities b) = Ok aces /\
    m = mkModel (Some info) hes des
          (fold_left add_under (omap id eos) ∅)
          (fold_left add_under (omap id ros) ∅)
          ces mes aces.
Proof.
  rewrite build_master_tables_ok. split.
  - intros (m1 & m2 & hs & m3 & m4 & m5 & m6 & m7 &
            H1 & H2 & H3 & H4 & H5 & H6 & H7 & H8).
    apply build_player_info_ok in H1 as (info & Hinfo & ->).
    apply build_heroes_ok in H2 as (Hhp & unl & hes & Hunl & Hhes & -> & Hhs).
    apply build_decks_ok in H3 as (ds & des & Hds & Hdes & ->).
    apply build_equipment_ok in H4 as (eqs & eos & Heqs & Heos & ->).
    apply build_relics_ok in H5 as (ros & Hros & ->).
    apply build_cities_ok in H6 as (cs & ces & Hcs & Hces & ->).
    apply build_alliance_members_ok in H7 as (ms & mes & Hms & Hmes & ->).
    apply build_alliance_cities_ok in H8 as (aces & Haces & ->).
    split; [exact Hhp|].
    exists info, unl, hes, hs, ds, des, eqs, eos, ros, cs, ces, ms, mes, aces.
    repeat (split; [assumption|]). reflexivity.
  - intros (Hhp & info & unl & hes & hs & ds & des & eqs & eos & ros & cs & ces &
            ms & mes & aces & Hinfo & Hunl & Hhes & Hhs & Hds & Hdes & Heqs & Heos &
            Hros & Hcs & Hces & Hms & Hmes & Haces & ->).
    eexists _, _, hs, _, _, _, _, _.
    split; [apply build_player_info_ok; eauto|].
    split; [apply build_heroes_ok; split; [exact Hhp|]; exists unl, hes; eauto|].
    split; [apply build_decks_ok; eauto|].
    split; [apply build_equipment_ok; eauto|].
    split; [apply build_relics_ok; eauto|].
    split; [apply build_cities_ok; eauto|].
    split; [apply build_alliance_members_ok; eauto|].
    apply build_alliance_cities_ok. exists aces. split; [exact Haces|reflexivity].
Qed.

(** ** What the classifier leaves in each bucket *)

Lemma route_message_raw_playerdto b msg :
  raw_playerdto (route_message b msg) =
  if has_suffix "PlayerDTO" msg then msg else raw_playerdto b.
Proof.
  unfold route_message, has_suffix. destruct (dto_type msg); [|reflexivity].
  apply route_raw_playerdto.
Qed.

Lemma route_message_raw_heropush b msg :
  raw_heropush (route_message b msg) =
  if has_suffix "HeroPush" msg then msg else raw_heropush b.
Proof.
  unfold route_message, has_suffix. destruct (dto_type msg); [|reflexivity].
  apply route_raw_heropush.
Qed.

Lemma route_message_raw_alliance_members b msg :
  raw_alliance_members (route_message b msg) =
  if has_suffix "AllianceMembersResponse" msg then msg else raw_alliance_members b.
Proof.
  unfold route_message, has_suffix. destruct (dto_type msg); [|reflexivity].
  apply route_raw_alliance_members.
Qed.

Lemma route_message_raw_equipment_lists b msg :
  raw_equipment_lists (route_message b msg) =
  raw_equipment_lists b ++ option_list (equipment_list_of msg).
Proof.
  unfold route_message, equipment_list_of, has_suffix.
  destruct (dto_type msg) as [s|]; [|now rewrite app_nil_r].
  rewrite route_raw_equipment_lists. now destruct (PyStr.endswith s _).
Qed.

Lemma route_message_raw_cities b msg :
  raw_cities (route_message b msg) =
  raw_cities b ++ (if has_suffix "CityDTO" msg then [msg] else []).
Proof.
  unfold route_message, has_suffix.
  destruct (dto_type msg) as [s|]; [|now rewrite app_nil_r].
  apply route_raw_cities.
Qed.

Lemma route_message_raw_alliance_cities b msg :
  raw_alliance_cities (route_message b msg) = raw_alliance_cities b.
Proof.
  unfold route_message. destruct (dto_type msg); [|reflexivity].
  apply route_raw_alliance_cities.
Qed.

Lemma flat_map_option_list {A B} (f : A -> option B) (l : list A) :
  List.flat_map (fun x => option_list (f x)) l = omap f l.
Proof.
  induction l as [|x l IH]; [reflexivity|].
  cbn [List.flat_map omap list_omap]. rewrite IH. now destruct (f x).
Qed.

(** However classification ends, the alliance-city bucket is empty. *)
Lemma alliance_city_bucket_empty messages :
  raw_alliance_cities (fst (classify messages)) = [].
Proof.
  unfold classify, classify_startup_messages.
  rewrite bind_modify.
  match goal with
  | |- ?f (fst (?m ?s)) = _ =>
      assert (P : preserves f m); [|exact (P s)]
  end.
  apply preserves_bind; [apply preserves_lift|]. intros msgs.
  apply preserves_for_each. intros msg s.
  rewrite classify_message_route. apply route_message_raw_alliance_cities.
Qed.

(** A record whose discriminator ends with [AllianceCityDTO] is appended
    to the city bucket. *)
Lemma alliance_city_record_routed_to_cities b msg :
  has_suffix "AllianceCityDTO" msg = true ->
  route_message b msg =
  mkBuckets (raw_playerdto b) (raw_heropush b) (raw_equipment_lists b)
    (raw_relic_lists b) (raw_cities b ++ [msg]) (raw_alliance_members b)
    (raw_alliance_cities b).
Proof.
  unfold has_suffix, route_message. destruct (dto_type msg) as [s|]; [|discriminate].
  intros H. pose proof (PyStrFacts.alliance_city_is_city s H) as Hc.
  unfold route.
  rewrite (PyStrFacts.endswith_exclusive s "CityDTO" "PlayerDTO" eq_refl eq_refl Hc).
  rewrite (PyStrFacts.endswith_exclusive s "CityDTO" "HeroPush" eq_refl eq_refl Hc).
  rewrite (PyStrFacts.endswith_exclusive s "CityDTO" "AllEquipmentUnitDataDTO" eq_refl eq_refl Hc).
  rewrite (PyStrFacts.endswith_exclusive s "CityDTO" "RelicUnitDataDTO" eq_refl eq_refl Hc).
  now rewrite Hc.
Qed.

Lemma flat_map_filter {A} (P : A -> bool) (l : list A) :
  List.flat_map (fun x => if P x then [x] else []) l = List.filter P l.
Proof.
  induction l as [|x l IH]; [reflexivity|].
  simpl. rewrite IH. now destruct (P x).
Qed.



(** * The claims *)

(** C1 (the code departs from the claim).  On the stream made of one
    record whose discriminator ends with [AllianceCityDTO] and one
    [HeroPush], classification ends normally with the record in the city
    bucket and the alliance-city bucket empty, and the model then built has
    no alliance city at all: the [CityDTO] test comes first and every
    [...AllianceCityDTO] name passes it. *)
Theorem C1_alliance_city_misrouted :
  has_suffix "AllianceCityDTO" alliance_city_record = true /\
  exists b m,
    classify (JList [alliance_city_record; heropush_record [] []]) = (b, Ok tt) /\
    raw_alliance_cities b = [] /\
    raw_cities b = [alliance_city_record] /\
    build_master_tables b init_model = (m, Ok tt) /\
    alliance_cities m = [].
Proof.
  split; [reflexivity|].
  eexists _, _. split; [vm_compute; reflexivity|].
  repeat split; vm_compute; reflexivity.
Qed.

(** C6 (counterexample).  A record of kind [AllEquipmentUnitDataDTO]
    without an [allEquipment] field is classified without error and adds
    no inner list: the bucket is empty although the stream holds one record
    of the kind. *)
Lemma C6_counterexample :
  let msg := JObj [("@type", JStr "type.googleapis.com/AllEquipmentUnitDataDTO")] in
  exists b,
    classify (JList [msg]) = (b, Ok tt) /\
    List.filter (has_suffix "AllEquipmentUnitDataDTO") [msg] = [msg] /\
    raw_equipment_lists b = [].
Proof. eexists. repeat split; vm_compute; reflexivity. Qed.

(** C6 (amended).  After a classification that ends normally, the
    EquipmentLists bucket holds, in stream order, the [allEquipment] value
    of every record whose discriminator ends with [AllEquipmentUnitDataDTO]
    and that has an [allEquipment] field; records of the kind without the
    field add nothing. *)
Theorem C6_equipment_lists_bucket (msgs : list json) (b : Buckets) :
  classify (JList msgs) = (b, Ok tt) ->
  raw_equipment_lists b = omap equipment_list_of msgs.
Proof.
  rewrite classify_stream. intros H.
  apply for_each_classify_ok in H as [-> _].
  rewrite (fold_left_collect route_message raw_equipment_lists
             (fun msg => option_list (equipment_list_of msg)))
    by apply route_message_raw_equipment_lists.
  apply flat_map_option_list.
Qed.

Lemma C6_equipment_lists_bucket_witness :
  let m1 := JObj [("@type", JStr "a.AllEquipmentUnitDataDTO");
                  ("allEquipment", JList [JObj [("id", JNum 1)]])] in
  let m2 := JObj [("@type", JStr "a.AllEquipmentUnitDataDTO")] in
  let m3 := JObj [("@type", JStr "a.AllEquipmentUnitDataDTO");
                  ("allEquipment", JList [])] in
  raw_equipment_lists (fst (classify (JList [m1; m2; m3]))) =
  [JList [JObj [("id", JNum 1)]]; JList []].
Proof.
  intros m1 m2 m3.
  rewrite (C6_equipment_lists_bucket [m1; m2; m3] (fst (classify (JList [m1; m2; m3])))).
  - reflexivity.
  - vm_compute. reflexivity.
Defined.

Lemma has_suffix_truthy_mapping suf msg :
  PyStr.endswith EmptyString suf = false ->
  has_suffix suf msg = true -> is_mapping msg = true /\ Py.truthy msg = true.
Proof.
  unfold has_suffix, dto_type. intros Hsuf.
  destruct msg as [| | | | |kv]; try discriminate.
  destruct kv as [|p kv]; [|now split].
  simpl. rewrite Hsuf. discriminate.
Qed.

Lemma profile_entry_mapping p :
  is_mapping p = true -> profile_entry p = Ok (profile_of p).
Proof. destruct p; try discriminate. reflexivity. Qed.

Lemma last_filter_in {A} (P : A -> bool) (l : list A) x :
  last (List.filter P l) = Some x -> P x = true.
Proof.
  intros H. apply last_Some_elem_of in H.
  apply list_elem_of_In, List.filter_In in H. tauto.
Qed.

(** The profile is assigned before anything else and never again. *)
Lemma build_keeps_player_info b m0 m1 :
  build_player_info b m0 = (m1, Ok tt) ->
  player_info (fst (build_master_tables b m0)) = player_info m1.
Proof.
  intros H. unfold build_master_tables. rewrite (bind_ok _ _ _ _ _ H).
  match goal with
  | |- ?f (fst (?m ?s)) = _ => assert (P : preserves f m); [|exact (P s)]
  end.
  unfold build_heroes, build_decks, build_equipment, build_equipment_item,
    build_relics, build_relic, build_cities, build_alliance_members,
    build_alliance_cities.
  preserves_tac.
Qed.

(** C7.  After a classification that ends normally, each of the three
    singleton buckets (PlayerDTO, HeroPush, AllianceMembersResponse) holds
    the last record of its kind in stream order, or nothing when there is
    none; and whatever the build does afterwards, the profile it leaves is
    read off that last Player record [B] field by field. *)
Theorem C7_singletons_last_write_wins (msgs : list json) (b : Buckets) :
  classify (JList msgs) = (b, Ok tt) ->
  raw_playerdto b = default JNull (last_of_kind "PlayerDTO" msgs) /\
  raw_heropush b = default JNull (last_of_kind "HeroPush" msgs) /\
  raw_alliance_members b = default JNull (last_of_kind "AllianceMembersResponse" msgs) /\
  forall B m0,
    last_of_kind "PlayerDTO" msgs = Some B ->
    player_info (fst (build_master_tables b m0)) = Some (profile_of B).
Proof.
  rewrite classify_stream. intros H.
  apply for_each_classify_ok in H as [-> _].
  assert (Hp : raw_playerdto (fold_left route_message msgs empty_buckets)
               = default JNull (last_of_kind "PlayerDTO" msgs)).
  { rewrite (fold_left_last route_message raw_playerdto (has_suffix "PlayerDTO") id)
      by apply route_message_raw_playerdto.
    unfold last_of_kind. now destruct (last _). }
  split; [exact Hp|]. split; [|split].
  - rewrite (fold_left_last route_message raw_heropush (has_suffix "HeroPush") id)
      by apply route_message_raw_heropush.
    unfold last_of_kind. now destruct (last _).
  - rewrite (fold_left_last route_message raw_alliance_members
               (has_suffix "AllianceMembersResponse") id)
      by apply route_message_raw_alliance_members.
    unfold last_of_kind. now destruct (last _).
  - intros B m0 HB. rewrite HB in Hp. simpl in Hp.
    apply last_filter_in in HB.
    apply has_suffix_truthy_mapping in HB as [Hmap Htruthy]; [|reflexivity].
    set (b := fold_left route_message msgs empty_buckets) in *.
    assert (H1 : build_player_info b m0 = (set_player_info (Some (profile_of B)) m0, Ok tt)).
    { apply build_player_info_ok. exists (profile_of B). split; [|reflexivity].
      unfold profile_result. rewrite Hp, Htruthy. now apply profile_entry_mapping. }
    now rewrite (build_keeps_player_info _ _ _ H1).
Qed.

Lemma C7_singletons_last_write_wins_witness :
  let A := JObj [("@type", JStr "x.PlayerDTO"); ("id", JNum 1); ("username", JStr "a")] in
  let B := JObj [("@type", JStr "x.PlayerDTO"); ("id", JNum 2); ("displayName", JStr "Bee")] in
  let b := fst (classify (JList [A; heropush_record [] []; B])) in
  raw_playerdto b = B /\
  player_info (fst (build_master_tables b init_model)) =
  Some (Profile.mk (JNum 2) (JStr "Bee") JNull JNull).
Proof.
  intros A B b.
  destruct (C7_singletons_last_write_wins [A; heropush_record [] []; B] b)
    as (Hp & _ & _ & Hinfo).
  - vm_compute. reflexivity.
  - split; [exact Hp|]. apply (Hinfo B init_model). vm_compute. reflexivity.
Defined.


(** ** Which exceptions can end a build *)

Lemma rsafe_ok {A} (x : A) : rsafe (Ok x).
Proof. intros e H. discriminate. Qed.

Lemma rsafe_rbind {A B} (r : result A) (k : A -> result B) :
  rsafe r -> (forall x, rsafe (k x)) -> rsafe (rbind r k).
Proof.
  intros Hr Hk e. destruct r as [x|e']; simpl.
  - apply Hk.
  - intros [= <-]. now apply Hr.
Qed.

Lemma rsafe_rmap {A B} (f : A -> result B) xs :
  (forall x, rsafe (f x)) -> rsafe (rmap f xs).
Proof.
  intros Hf. induction xs as [|x xs IH]; simpl; [apply rsafe_ok|].
  apply rsafe_rbind; [apply Hf|]. intros y.
  apply rsafe_rbind; [exact IH|]. intros ys. apply rsafe_ok.
Qed.

Lemma rsafe_if {A} (c : bool) (r1 r2 : result A) :
  rsafe r1 -> rsafe r2 -> rsafe (if c then r1 else r2).
Proof. now destruct c. Qed.

Lemma rsafe_get v k d : rsafe (Py.get v k d).
Proof. destruct v; intros e [= <-]; exact I. Qed.

Lemma rsafe_getitem v k : rsafe (Py.getitem v k).
Proof.
  destruct v; try (intros e [= <-]; exact I).
  simpl. destruct (Py.assoc k kv); intros e [= <-]; exact I.
Qed.

Lemma rsafe_contains k v : rsafe (Py.contains k v).
Proof. destruct v; intros e [= <-]; exact I. Qed.

Lemma rsafe_replace v old new : rsafe (Py.replace v old new).
Proof. destruct v; intros e [= <-]; exact I. Qed.

Lemma rsafe_iter v : rsafe (Py.iter v).
Proof. destruct v; intros e [= <-]; exact I. Qed.

Lemma rsafe_set_of vs : rsafe (Py.set_of vs).
Proof.
  apply rsafe_rmap. intros v. destruct (Py.hashable v); [apply rsafe_ok|].
  intros e [= <-]. exact I.
Qed.

Lemma rsafe_owned v hs : rsafe (owned v hs).
Proof.
  unfold owned, Py.in_set. destruct (Py.truthy v); [|apply rsafe_ok].
  destruct (Py.hashable v); [apply rsafe_ok|]. intros e [= <-]. exact I.
Qed.

Ltac rsafe_tac :=
  repeat first
    [ apply rsafe_ok
    | apply rsafe_get
    | apply rsafe_getitem
    | apply rsafe_contains
    | apply rsafe_replace
    | apply rsafe_iter
    | apply rsafe_set_of
    | apply rsafe_owned
    | apply rsafe_rmap; intros ?
    | apply rsafe_rbind; [|intros ?]
    | apply rsafe_if ].

Lemma msafe_ret {St A} (x : A) : msafe (@ret St A x).
Proof. intros s s' e H. discriminate. Qed.

Lemma msafe_modify {St} (g : St -> St) : msafe (modify g).
Proof. intros s s' e H. discriminate. Qed.

Lemma msafe_gets {St A} (g : St -> A) : msafe (gets g).
Proof. intros s s' e H. discriminate. Qed.

Lemma msafe_lift {St A} (r : result A) : rsafe r -> msafe (@lift St A r).
Proof. intros Hr s s' e [= _ H]. now apply Hr. Qed.

Lemma msafe_bind {St A B} (m : M St A) (k : A -> M St B) :
  msafe m -> (forall x, msafe (k x)) -> msafe (bind m k).
Proof.
  intros Hm Hk s s' e. unfold bind.
  destruct (m s) as [s1 [x|e1]] eqn:E.
  - apply Hk.
  - intros [= _ <-]. exact (Hm _ _ _ E).
Qed.

Lemma msafe_for_each {St A} (xs : list A) (body : A -> M St unit) :
  (forall x, msafe (body x)) -> msafe (for_each xs body).
Proof.
  intros H. induction xs as [|x xs IH]; simpl; [apply msafe_ret|].
  apply msafe_bind; auto.
Qed.

Lemma msafe_if {St A} (c : bool) (m1 m2 : M St A) :
  msafe m1 -> msafe m2 -> msafe (if c then m1 else m2).
Proof. now destruct c. Qed.

Ltac msafe_tac :=
  repeat first
    [ apply msafe_ret
    | apply msafe_modify
    | apply msafe_gets
    | apply msafe_lift; rsafe_tac
    | apply msafe_for_each; intros ?
    | apply msafe_bind; [|intros ?]
    | apply msafe_if ].

(** With a HeroPush in its bucket, the build can only be ended by an
    exception Python raises by itself. *)
Lemma build_master_tables_safe b :
  Py.truthy (raw_heropush b) = true -> msafe (build_master_tables b).
Proof.
  intros Hhp.
  unfold build_master_tables, build_player_info, build_heroes, build_decks,
    build_equipment, build_equipment_item, build_relics, build_relic,
    build_cities, build_alliance_members, build_alliance_cities.
  rewrite Hhp. cbn [negb].
  unfold profile_entry, hero_entry, deck_entry, equipment_entry, city_entry,
    alliance_member_entry, alliance_city_entry.
  msafe_tac.
Qed.


Lemma profile_result_classified b :
  player_bucket_classified b -> profile_result b = Ok (built_profile b).
Proof.
  unfold profile_result, built_profile. intros [H|H].
  - now rewrite H.
  - destruct (Py.truthy (raw_playerdto b)); [|reflexivity].
    now apply profile_entry_mapping.
Qed.

(** C2 (counterexample).  With no record at all in the stream the build
    raises, and the profile it leaves is not the one it found: the model
    has been assigned in part. *)
Lemma C2_counterexample :
  exists b m e,
    classify (JList []) = (b, Ok tt) /\
    build_master_tables b init_model = (m, Raise e) /\
    player_info init_model = None /\
    player_info m = Some null_profile.
Proof. eexists _, _, _. repeat split; vm_compute; reflexivity. Qed.

(** C2 (amended).  For buckets whose Player singleton is absent or a
    mapping, the build raises its missing-HeroPush error if and only if
    the HeroPush singleton is absent (with a HeroPush present only an
    exception of Python's own can end it); when it raises that error the
    profile has already been assigned from the Player singleton, all null
    when there is none, and the seven other fields of the model are as
    before the call. *)
Theorem C2_missing_heropush (b : Buckets) (m0 : Model) :
  player_bucket_classified b ->
  (Py.truthy (raw_heropush b) = false ->
   build_master_tables b m0 =
   (mkModel (Some (built_profile b)) (heroes m0) (decks m0) (equipment m0)
      (relics m0) (cities m0) (alliance_members m0) (alliance_cities m0),
    Raise missing_heropush)) /\
  (forall m msg,
     build_master_tables b m0 = (m, Raise (Exception msg)) ->
     Py.truthy (raw_heropush b) = false).
Proof.
  intros Hp. split.
  - intros Hhp. unfold build_master_tables.
    assert (H1 : build_player_info b m0 =
                 (set_player_info (Some (built_profile b)) m0, Ok tt)).
    { apply build_player_info_ok. exists (built_profile b).
      split; [now apply profile_result_classified|reflexivity]. }
    rewrite (bind_ok _ _ _ _ _ H1).
    unfold build_heroes. rewrite Hhp. reflexivity.
  - intros m msg H. destruct (Py.truthy (raw_heropush b)) eqn:Hhp; [|reflexivity].
    exfalso. exact (build_master_tables_safe b Hhp _ _ _ H).
Qed.

Lemma C2_missing_heropush_witness :
  let p := JObj [("@type", JStr "x.PlayerDTO"); ("id", JNum 3)] in
  let b := fst (classify (JList [p])) in
  build_master_tables b init_model =
  (mkModel (Some (Profile.mk (JNum 3) JNull JNull JNull)) [] [] ∅ ∅ [] [] [],
   Raise missing_heropush).
Proof.
  intros p b.
  assert (Hp : player_bucket_classified b) by (right; reflexivity).
  destruct (C2_missing_heropush b init_model Hp) as [H _].
  rewrite H; reflexivity.
Defined.

(** C4.  The cities of a model come from the [unlockedCities] list of
    the Player singleton and from nothing else: the build is the same
    whatever the CityDTO bucket holds (and classification does fill that
    bucket, with every record whose discriminator ends with [CityDTO]);
    a build that returns leaves one city per element of the list, in
    order; and when the Player singleton is absent, or its list is
    absent or empty, the cities step assigns the empty list without
    error, so that every model the build returns has no city. *)
Theorem C4_cities_from_player_only (b : Buckets) :
  (forall rc m0,
     build_master_tables (with_raw_cities rc b) m0 = build_master_tables b m0) /\
  (forall msgs b',
     classify (JList msgs) = (b', Ok tt) ->
     raw_cities b' = List.filter (has_suffix "CityDTO") msgs) /\
  (forall m0 m,
     build_master_tables b m0 = (m, Ok tt) ->
     exists cs, unlocked_cities b = Ok cs /\ cities m = map city_of cs) /\
  (Py.truthy (raw_playerdto b) = false \/
   Py.get (raw_playerdto b) "unlockedCities" (JList []) = Ok (JList []) ->
   (forall m, build_cities b m = (set_cities [] m, Ok tt)) /\
   (forall m0 m, build_master_tables b m0 = (m, Ok tt) -> cities m = [])).
Proof.
  split; [|split; [|split]].
  - intros rc m0. reflexivity.
  - intros msgs b'. rewrite classify_stream. intros H.
    apply for_each_classify_ok in H as [-> _].
    rewrite (fold_left_collect route_message raw_cities
               (fun msg => if has_suffix "CityDTO" msg then [msg] else []))
      by apply route_message_raw_cities.
    apply flat_map_filter.
  - intros m0 m Hm. apply build_master_tables_model in Hm
      as (_ & info & unl & hes & hs & ds & des & eqs & eos & ros & cs & ces &
          ms & mes & aces & _ & _ & _ & _ & _ & _ & _ & _ & _ & Hcs & Hces & _ & _ & _ & ->).
    exists cs. split; [exact Hcs|]. cbn [cities].
    refine (rmap_ok_map _ _ _ _ _ Hces).
    intros x c. destruct x; try discriminate. now intros [= <-].
  - intros H.
    assert (Hcs : unlocked_cities b = Ok []).
    { unfold unlocked_cities. destruct H as [H|H].
      - now rewrite H.
      - rewrite H. now destruct (Py.truthy (raw_playerdto b)). }
    split.
    + intros m. apply build_cities_ok. exists [], []. now rewrite Hcs.
    + intros m0 m Hm. apply build_master_tables_model in Hm
        as (_ & info & unl & hes & hs & ds & des & eqs & eos & ros & cs & ces &
            ms & mes & aces & _ & _ & _ & _ & _ & _ & _ & _ & _ & Hcs' & Hces & _ & _ & _ & ->).
      rewrite Hcs in Hcs'. injection Hcs' as <-. simpl in Hces. now injection Hces as <-.
Qed.

Lemma C4_cities_from_player_only_witness :
  let p := JObj [("@type", JStr "x.PlayerDTO"); ("unlockedCities", JList [])] in
  let own := JObj [("id", JNum 7); ("definitionId", JStr "City_Capital")] in
  let q := JObj [("@type", JStr "x.PlayerDTO"); ("unlockedCities", JList [own])] in
  let c := JObj [("@type", JStr "x.CityDTO"); ("id", JNum 1)] in
  let b := fst (classify (JList [p; c; c; heropush_record [] []])) in
  let b' := fst (classify (JList [q; c; c; heropush_record [] []])) in
  raw_cities b = [c; c] /\
  (exists m, build_master_tables b init_model = (m, Ok tt) /\ cities m = []) /\
  raw_cities b' = [c; c] /\
  (exists m, build_master_tables b' init_model = (m, Ok tt) /\
             cities m = [City.mk (JNum 7) (JStr "City_Capital") (JObj []) (JObj [])]).
Proof.
  intros p own q c b b'.
  destruct (C4_cities_from_player_only b) as (_ & Hfill & _ & Hempty).
  destruct (C4_cities_from_player_only b') as (_ & Hfill' & Hfrom & _).
  split; [|split; [|split]].
  - apply (Hfill [p; c; c; heropush_record [] []]). vm_compute. reflexivity.
  - eexists. split; [vm_compute; reflexivity|].
    assert (H : Py.truthy (raw_playerdto b) = false \/
                Py.get (raw_playerdto b) "unlockedCities" (JList []) = Ok (JList []))
      by (right; reflexivity).
    destruct (Hempty H) as [_ Hc].
    apply (Hc init_model). vm_compute. reflexivity.
  - apply (Hfill' [q; c; c; heropush_record [] []]). vm_compute. reflexivity.
  - eexists. split; [vm_compute; reflexivity|].
    destruct (Hfrom init_model _ ltac:(vm_compute; reflexivity)) as (cs & Hcs & ->).
    vm_compute in Hcs. injection Hcs as <-. reflexivity.
Defined.


Lemma rmap_ok_proj {A B C} (f : A -> result B) (p : B -> C) (q : A -> C) xs ys :
  (forall x y, f x = Ok y -> p y = q x) ->
  rmap f xs = Ok ys -> map p ys = map q xs.
Proof.
  intros H. revert ys. induction xs as [|x xs IH]; simpl; intros ys.
  - now intros [= <-].
  - unfold rbind. destruct (f x) as [y|] eqn:E; [|discriminate].
    destruct (rmap f xs) as [ys'|]; [|discriminate].
    intros [= <-]. simpl. now rewrite (H _ _ E), (IH _ eq_refl).
Qed.

Lemma rmap_ok_Forall2 {A B} (f : A -> result B) xs ys :
  rmap f xs = Ok ys -> Forall2 (fun x y => f x = Ok y) xs ys.
Proof.
  revert ys. induction xs as [|x xs IH]; simpl; intros ys.
  - intros [= <-]. constructor.
  - unfold rbind. destruct (f x) as [y|] eqn:E; [|discriminate].
    destruct (rmap f xs) as [ys'|]; [|discriminate].
    intros [= <-]. constructor; auto.
Qed.

Lemma hero_entry_id h e :
  hero_entry h = Ok e -> Hero.heroDefinitionId e = field "heroDefinitionId" h.
Proof.
  unfold hero_entry. destruct h; try discriminate. cbn [Py.get rbind].
  fold (field "heroDefinitionId" (JObj kv)).
  destruct (Py.truthy _).
  - destruct (Py.replace _ _ _); [|discriminate]. now intros [= <-].
  - now intros [= <-].
Qed.

(** C5 (counterexample).  Two elements of the unlocked list with the same
    hero identifier give two hero entries with that identifier. *)
Lemma C5_counterexample :
  let h1 := JObj [("heroDefinitionId", JStr "hero.Boudica"); ("level", JNum 1)] in
  let h2 := JObj [("heroDefinitionId", JStr "hero.Boudica"); ("level", JNum 2)] in
  exists b m,
    classify (JList [heropush_record [h1; h2] []]) = (b, Ok tt) /\
    build_master_tables b init_model = (m, Ok tt) /\
    map Hero.heroDefinitionId (heroes m) = [JStr "hero.Boudica"; JStr "hero.Boudica"] /\
    ~ NoDup (map Hero.heroDefinitionId (heroes m)).
Proof.
  eexists _, _. split; [vm_compute; reflexivity|].
  split; [vm_compute; reflexivity|]. split; [reflexivity|].
  intros H. apply NoDup_cons in H as [H _]. apply H. left.
Qed.

(** C5 (amended).  A build that ends normally leaves exactly one hero
    entry per element of HeroPush's unlocked list, in order, each with the
    hero identifier of its element; so the hero identifiers of the model
    are unique exactly when those of the unlocked list are. *)
Theorem C5_heroes_one_per_unlocked (b : Buckets) (m0 m : Model) :
  build_master_tables b m0 = (m, Ok tt) ->
  exists unl,
    unlocked_heroes b = Ok unl /\
    length (heroes m) = length unl /\
    map Hero.heroDefinitionId (heroes m) = map (field "heroDefinitionId") unl /\
    (NoDup (map Hero.heroDefinitionId (heroes m)) <->
     NoDup (map (field "heroDefinitionId") unl)).
Proof.
  intros Hm. apply build_master_tables_model in Hm
    as (_ & info & unl & hes & hs & ds & des & eqs & eos & ros & cs & ces &
        ms & mes & aces & _ & Hunl & Hhes & _ & _ & _ & _ & _ & _ & _ & _ & _ & _ & _ & ->).
  exists unl. cbn [heroes].
  pose proof (rmap_ok_proj _ _ _ _ _ hero_entry_id Hhes) as Hids.
  split; [exact Hunl|]. split.
  - apply (f_equal (@length _)) in Hids. now rewrite !length_map in Hids.
  - split; [exact Hids|]. now rewrite Hids.
Qed.

Lemma C5_heroes_one_per_unlocked_witness :
  let h1 := JObj [("heroDefinitionId", JStr "hero.Boudica")] in
  let h2 := JObj [("heroDefinitionId", JStr "hero.Caesar")] in
  let b := fst (classify (JList [heropush_record [h1; h2] []])) in
  exists m, build_master_tables b init_model = (m, Ok tt) /\
            map Hero.heroDefinitionId (heroes m) = [JStr "hero.Boudica"; JStr "hero.Caesar"].
Proof.
  intros h1 h2 b. eexists. split; [vm_compute; reflexivity|].
  destruct (C5_heroes_one_per_unlocked b init_model _ ltac:(vm_compute; reflexivity))
    as (unl & Hunl & _ & Hids & _).
  vm_compute in Hunl. injection Hunl as <-. exact Hids.
Defined.


(** ** Removing [hero.] and stripping a prefix *)

Lemma startswith_app p r : PyStr.startswith (p +:+ r) p = true.
Proof.
  induction p as [|c p IH]; simpl; [now destruct r|].
  now rewrite Ascii.eqb_refl.
Qed.

Lemma startswith_split s p :
  PyStr.startswith s p = true -> exists r, s = p +:+ r.
Proof.
  revert s. induction p as [|c p IH]; intros s; simpl.
  - intros _. now exists s.
  - destruct s as [|c' s]; [discriminate|].
    intros H. apply andb_true_iff in H as [Hc Hs].
    apply Ascii.eqb_eq in Hc. subst c'.
    destruct (IH _ Hs) as [r ->]. now exists r.
Qed.

Lemma string_drop_app p r : string_drop (String.length p) (p +:+ r) = r.
Proof. induction p as [|c p IH]; simpl; [now destruct r|exact IH]. Qed.

Lemma replace_from_skip old new pre s :
  PyStr.replace_from old new (String.length pre) (pre +:+ s) =
  PyStr.replace_from old new O s.
Proof. induction pre as [|c pre IH]; simpl; [now destruct s|exact IH]. Qed.

Lemma replace_prefix c old new r :
  PyStr.replace (String c old +:+ r) (String c old) new =
  new +:+ PyStr.replace r (String c old) new.
Proof.
  unfold PyStr.replace.
  change (String c old +:+ r) with (String c (old +:+ r)).
  cbn [PyStr.replace_from].
  change (String c (old +:+ r)) with (String c old +:+ r).
  rewrite startswith_app. cbn [String.length Nat.pred].
  now rewrite replace_from_skip.
Qed.

Lemma replace_no_occurrence old new s :
  PyStr.occurs old s = false -> PyStr.replace s old new = s.
Proof.
  unfold PyStr.replace. induction s as [|c s IH]; [reflexivity|].
  cbn [PyStr.occurs PyStr.replace_from]. intros H.
  apply orb_false_iff in H as [H1 H2]. rewrite H1. now rewrite (IH H2).
Qed.

(** Where the namespace occurs at most as the leading prefix, removing
    every occurrence and stripping the prefix agree. *)
Lemma replace_is_strip_prefix c old s :
  PyStr.occurs (String c old) (strip_prefix (String c old) s) = false ->
  PyStr.replace s (String c old) EmptyString = strip_prefix (String c old) s.
Proof.
  unfold strip_prefix. destruct (PyStr.startswith s (String c old)) eqn:E.
  - destruct (startswith_split _ _ E) as [r ->].
    rewrite string_drop_app, replace_prefix. intros H.
    now rewrite (replace_no_occurrence _ _ _ H).
  - apply replace_no_occurrence.
Qed.

Lemma rmap_replace_strings hids names :
  rmap (fun hid => Py.replace hid "hero." EmptyString) hids = Ok names ->
  exists ids, hids = map JStr ids /\
              names = map (fun s => PyStr.replace s "hero." EmptyString) ids.
Proof.
  revert names. induction hids as [|hid hids IH]; simpl; intros names.
  - intros [= <-]. now exists [].
  - unfold rbind. destruct (Py.replace hid _ _) as [n|] eqn:E; [|discriminate].
    destruct (rmap _ hids) as [ns|]; [|discriminate]. intros [= <-].
    destruct (IH _ eq_refl) as (ids & -> & ->).
    destruct hid; try discriminate. injection E as <-.
    now exists (s :: ids).
Qed.

Lemma deck_entry_built d e : deck_entry d = Ok e -> deck_built d e.
Proof.
  unfold deck_entry, deck_built. destruct d; try discriminate.
  cbn [Py.get rbind field field_or].
  destruct (Py.iter _) as [hids|]; [|discriminate]. cbn [rbind].
  destruct (rmap _ hids) as [names|] eqn:E; [|discriminate].
  intros [= <-]. simpl. split; [reflexivity|].
  destruct (rmap_replace_strings _ _ E) as (ids & -> & ->). now exists ids.
Qed.

(** C8 (counterexample).  A deck that refers to [hero.superhero.Max], a
    hero not in the owned set, is built with the name [superMax]: every
    [hero.] is removed, not only the leading one, so the name is not the
    identifier with its prefix stripped. *)
Lemma C8_counterexample :
  let d := JObj [("definitionId", JStr "deck.1");
                 ("heroDefinitionId", JList [JStr "hero.superhero.Max"])] in
  exists b m,
    classify (JList [heropush_record [] [d]]) = (b, Ok tt) /\
    build_master_tables b init_model = (m, Ok tt) /\
    map Deck.heroes (decks m) = [["superMax"]] /\
    map (strip_prefix "hero.") ["hero.superhero.Max"] = ["superhero.Max"].
Proof.
  eexists _, _. split; [vm_compute; reflexivity|].
  split; [vm_compute; reflexivity|]. split; reflexivity.
Qed.

(** C8 (amended).  A build that ends normally leaves one deck per element
    of HeroPush's deck list, in order; the hero list of a deck is the
    element's list of hero identifiers, in order and with none left out
    whatever the owned set is, each with every occurrence of [hero.]
    removed; for an identifier in which [hero.] occurs at most as the
    leading prefix this is the identifier with the prefix stripped. *)
Theorem C8_decks_pass_through (b : Buckets) (m0 m : Model) :
  build_master_tables b m0 = (m, Ok tt) ->
  (exists ds, deck_list b = Ok ds /\ Forall2 deck_built ds (decks m)) /\
  (forall s, PyStr.occurs "hero." (strip_prefix "hero." s) = false ->
             PyStr.replace s "hero." EmptyString = strip_prefix "hero." s).
Proof.
  intros Hm. split; [|intros s; apply replace_is_strip_prefix].
  apply build_master_tables_model in Hm
    as (_ & info & unl & hes & hs & ds & des & eqs & eos & ros & cs & ces &
        ms & mes & aces & _ & _ & _ & _ & Hds & Hdes & _ & _ & _ & _ & _ & _ & _ & _ & ->).
  exists ds. split; [exact Hds|]. cbn [decks].
  apply rmap_ok_Forall2 in Hdes.
  eapply Forall2_impl; [exact Hdes|]. intros d e. apply deck_entry_built.
Qed.

Lemma C8_decks_pass_through_witness :
  let d := JObj [("definitionId", JStr "deck.1");
                 ("heroDefinitionId", JList [JStr "hero.Boudica"; JStr "hero.Caesar"])] in
  let h := JObj [("heroDefinitionId", JStr "hero.Boudica")] in
  let b := fst (classify (JList [heropush_record [h] [d]])) in
  exists m, build_master_tables b init_model = (m, Ok tt) /\
            Forall2 deck_built [d] (decks m) /\
            map Deck.heroes (decks m) = [["Boudica"; "Caesar"]].
Proof.
  intros d h b. eexists. split; [vm_compute; reflexivity|].
  destruct (C8_decks_pass_through b init_model _ ltac:(vm_compute; reflexivity))
    as [(ds & Hds & Hall) _].
  vm_compute in Hds. injection Hds as <-. split; [exact Hall|reflexivity].
Defined.


(** ** The join of equipment and relics with the owned heroes *)

Lemma set_of_ok vs hs : Py.set_of vs = Ok hs -> hs = vs.
Proof.
  unfold Py.set_of. intros H. rewrite <- (map_id vs).
  refine (rmap_ok_map _ id _ _ _ H).
  intros v y. simpl. destruct (Py.hashable v); [now intros [= <-]|discriminate].
Qed.

Lemma select_omap {A B} (f : A -> option (string * B)) (n : string) (l : list A) :
  select n (omap f l) =
  omap (fun x => match f x with
                 | Some p => if String.eqb p.1 n then Some p.2 else None
                 | None => None
                 end) l.
Proof.
  unfold select. induction l as [|x l IH]; [reflexivity|].
  cbn [omap list_omap]. destruct (f x) as [p|]; [|exact IH].
  cbn [omap list_omap]. rewrite <- IH. reflexivity.
Qed.

Lemma omap_ext_fun {A B} (f g : A -> option B) (l : list A) :
  (forall x, f x = g x) -> omap f l = omap g l.
Proof.
  intros H. induction l as [|x l IH]; [reflexivity|].
  cbn [omap list_omap]. now rewrite H, IH.
Qed.

Lemma select_equipment_kept hs name eqs :
  select name (omap (equipment_kept hs) eqs) =
  omap (kept_under hs name equipped_on equipment_of) eqs.
Proof.
  rewrite select_omap. apply omap_ext_fun. intros e.
  unfold equipment_kept, kept_under. now destruct (kept hs (equipped_on e)).
Qed.

Lemma select_relic_kept hs name rs :
  select name (omap (relic_kept hs) rs) =
  omap (kept_under hs name supporting_hero relic_of) rs.
Proof.
  rewrite select_omap. apply omap_ext_fun. intros e.
  unfold relic_kept, kept_under. now destruct (kept hs (supporting_hero e)).
Qed.

(** C3 (counterexample).  The owned set holds the empty identifier and the
    null one; an equipment entry equipped on the empty identifier and one
    without any identifier both refer to a member of the set, and neither
    is in the model. *)
Lemma C3_counterexample :
  let h1 := JObj [("heroDefinitionId", JStr EmptyString)] in
  let h2 := JObj [("level", JNum 1)] in
  let e1 := JObj [("id", JNum 1); ("equippedOnHeroDefinitionId", JStr EmptyString)] in
  let e2 := JObj [("id", JNum 2)] in
  let eq_msg := JObj [("@type", JStr "x.AllEquipmentUnitDataDTO");
                      ("allEquipment", JList [e1; e2])] in
  exists b m,
    classify (JList [heropush_record [h1; h2] []; eq_msg]) = (b, Ok tt) /\
    build_master_tables b init_model = (m, Ok tt) /\
    Py.set_of (map Hero.heroDefinitionId (heroes m)) = Ok [JStr EmptyString; JNull] /\
    Py.in_set (equipped_on e1) [JStr EmptyString; JNull] = Ok true /\
    Py.in_set (equipped_on e2) [JStr EmptyString; JNull] = Ok true /\
    equipment m = ∅.
Proof.
  eexists _, _. split; [vm_compute; reflexivity|].
  split; [vm_compute; reflexivity|]. repeat split; vm_compute; reflexivity.
Qed.

(** C3 (amended).  In a model the build returns, with the owned set the
    hero identifiers of HeroPush's unlocked list, the equipment entries
    under a display name are, in order, those built from the entries of
    the flattened EquipmentLists bucket whose equipped-on identifier is
    truthy (neither absent, null nor empty), is a member of the owned set
    and has that display name (the identifier with [hero.] removed); a
    name with no such entry is not a key.  The same holds for relics, with
    the supporting unit's definition identifier. *)
Theorem C3_inner_join (b : Buckets) (m0 m : Model) :
  build_master_tables b m0 = (m, Ok tt) ->
  exists unl eqs,
    unlocked_heroes b = Ok unl /\
    equipment_entries b = Ok eqs /\
    let hero_set := map (field "heroDefinitionId") unl in
    (forall name,
       equipment m !! name =
       nonempty (omap (kept_under hero_set name equipped_on equipment_of) eqs)) /\
    (forall name,
       relics m !! name =
       nonempty (omap (kept_under hero_set name supporting_hero relic_of)
                   (raw_relic_lists b))).
Proof.
  intros Hm. apply build_master_tables_model in Hm
    as (_ & info & unl & hes & hs & ds & des & eqs & eos & ros & cs & ces &
        ms & mes & aces & _ & Hunl & Hhes & Hhs & _ & _ & Heqs & Heos & Hros &
        _ & _ & _ & _ & _ & ->).
  exists unl, eqs. split; [exact Hunl|]. split; [exact Heqs|].
  apply set_of_ok in Hhs.
  rewrite (rmap_ok_proj _ _ _ _ _ hero_entry_id Hhes) in Hhs. subst hs.
  apply (rmap_ok_map _ _ _ _ (equipment_step_ok _)) in Heos.
  apply (rmap_ok_map _ _ _ _ (relic_step_ok _)) in Hros. subst eos ros.
  cbn [equipment relics]. split; intros name.
  - now rewrite group_lookup, omap_map_id, select_equipment_kept.
  - now rewrite group_lookup, omap_map_id, select_relic_kept.
Qed.

Lemma C3_inner_join_witness :
  let h := JObj [("heroDefinitionId", JStr "hero.Boudica")] in
  let e1 := JObj [("id", JNum 1); ("equippedOnHeroDefinitionId", JStr "hero.Boudica")] in
  let e2 := JObj [("id", JNum 2); ("equippedOnHeroDefinitionId", JStr "hero.Caesar")] in
  let eq_msg := JObj [("@type", JStr "x.AllEquipmentUnitDataDTO");
                      ("allEquipment", JList [e1; e2])] in
  let b := fst (classify (JList [heropush_record [h] []; eq_msg])) in
  exists m, build_master_tables b init_model = (m, Ok tt) /\
            equipment m !! "Boudica" = Some [equipment_of e1] /\
            equipment m !! "Caesar" = None.
Proof.
  intros h e1 e2 eq_msg b. eexists. split; [vm_compute; reflexivity|].
  destruct (C3_inner_join b init_model _ ltac:(vm_compute; reflexivity))
    as (unl & eqs & Hunl & Heqs & Hequipment & _).
  vm_compute in Hunl, Heqs. injection Hunl as <-. injection Heqs as <-.
  split; rewrite Hequipment; reflexivity.
Defined.

(** ** Entries that refer to no hero *)

Lemma build_equipment_item_without_hero hs e m :
  equipment_without_hero e = true -> build_equipment_item hs e m = (m, Ok tt).
Proof.
  unfold equipment_without_hero, equipped_on, field. intros H.
  apply andb_true_iff in H as [He Hn]. rewrite build_equipment_item_step.
  unfold equipment_step. rewrite (get_mapping _ _ _ He). cbn [rbind].
  destruct (field_or _ JNull e); try discriminate. reflexivity.
Qed.

Lemma build_relic_without_hero hs r m :
  relic_without_hero r = true -> build_relic hs r m = (m, Ok tt).
Proof.
  unfold relic_without_hero. intros H. rewrite build_relic_step.
  unfold relic_step. destruct r; try discriminate.
  cbn [Py.get Py.contains Py.getitem rbind].
  destruct (Py.assoc "supportingUnit" kv) as [u|]; cbn [bool_decide rbind].
  - apply andb_true_iff in H as [Hu Hn]. simpl.
    rewrite (get_mapping _ _ _ Hu). cbn [rbind].
    unfold field in Hn. destruct (field_or _ JNull u); try discriminate. reflexivity.
  - reflexivity.
Qed.

(** C10.  An equipment entry whose equipped-on identifier is absent or
    null, and a relic whose supporting unit or its definition identifier is
    absent or null, are never kept, whatever the owned set holds, the null
    identifier included: the build does exactly what it does on the
    buckets without the entry. *)
Theorem C10_no_hero_reference_excluded
    (p hp : json) (els rl cl : list json) (am : json) (acl : list json) (m0 : Model) :
  (forall hero_set, owned JNull hero_set = Ok false) /\
  (forall g1 pre e post g2,
     els = g1 ++ JList (pre ++ e :: post) :: g2 ->
     equipment_without_hero e = true ->
     build_master_tables (mkBuckets p hp els rl cl am acl) m0 =
     build_master_tables
       (mkBuckets p hp (g1 ++ JList (pre ++ post) :: g2) rl cl am acl) m0) /\
  (forall pre r post,
     rl = pre ++ r :: post ->
     relic_without_hero r = true ->
     build_master_tables (mkBuckets p hp els rl cl am acl) m0 =
     build_master_tables (mkBuckets p hp els (pre ++ post) cl am acl) m0).
Proof.
  split; [reflexivity|]. split.
  - intros g1 pre e post g2 -> He. unfold build_master_tables.
    apply bind_ext. intros _ m1. apply bind_ext. intros hs m2.
    apply bind_ext. intros _ m3.
    assert (Heq : forall s,
      build_equipment (mkBuckets p hp (g1 ++ JList (pre ++ e :: post) :: g2) rl cl am acl) hs s =
      build_equipment (mkBuckets p hp (g1 ++ JList (pre ++ post) :: g2) rl cl am acl) hs s).
    { intros s. unfold build_equipment. cbn [raw_equipment_lists].
      rewrite !bind_modify, !for_each_app. apply bind_ext. intros _ s1.
      cbn [for_each]. rewrite !bind_assoc. cbn [Py.iter]. rewrite !bind_lift_ok.
      unfold bind at 1 3.
      rewrite (for_each_skip pre post e _ s1
                 (fun s2 => build_equipment_item_without_hero hs e s2 He)).
      reflexivity. }
    unfold bind at 1 3. rewrite Heq. reflexivity.
  - intros pre r post -> Hr. unfold build_master_tables.
    apply bind_ext. intros _ m1. apply bind_ext. intros hs m2.
    apply bind_ext. intros _ m3. apply bind_ext. intros _ m4.
    assert (Heq : forall s,
      build_relics (mkBuckets p hp els (pre ++ r :: post) cl am acl) hs s =
      build_relics (mkBuckets p hp els (pre ++ post) cl am acl) hs s).
    { intros s. unfold build_relics. cbn [raw_relic_lists].
      rewrite !bind_modify.
      apply (for_each_skip pre post r _ _
               (fun s2 => build_relic_without_hero hs r s2 Hr)). }
    unfold bind at 1 3. rewrite Heq. reflexivity.
Qed.

Lemma C10_no_hero_reference_excluded_witness :
  let h := JObj [("level", JNum 1)] in
  let e := JObj [("id", JNum 7)] in
  let r := JObj [("relicDefinitionId", JStr "relic.Scroll")] in
  let hp := heropush_record [h] [] in
  exists m,
    build_master_tables (mkBuckets JNull hp [JList [e]] [r] [] JNull []) init_model
      = (m, Ok tt) /\
    map Hero.heroDefinitionId (heroes m) = [JNull] /\
    equipment m = ∅ /\ relics m = ∅.
Proof.
  intros h e r hp.
  destruct (C10_no_hero_reference_excluded JNull hp [JList [e]] [r] [] JNull [] init_model)
    as (_ & He & _).
  rewrite (He [] [] e [] [] eq_refl eq_refl). cbn [app].
  destruct (C10_no_hero_reference_excluded JNull hp [JList []] [r] [] JNull [] init_model)
    as (_ & _ & Hr).
  rewrite (Hr [] r [] eq_refl eq_refl). cbn [app].
  eexists. split; [vm_compute; reflexivity|]. repeat split.
Defined.


(** ** When nothing raises: the shapes the code relies on *)






















(** * Further properties of the classifier and the builder *)

(** X1.  Whatever the stream is and however classification ends, the
    AllianceCityRecords bucket is empty: no discriminator reaches the
    [AllianceCityDTO] branch. *)
Theorem X1_alliance_city_bucket_always_empty (messages : json) :
  raw_alliance_cities (fst (classify messages)) = [].
Proof. apply alliance_city_bucket_empty. Qed.

Lemma route_message_raw_relic_lists b msg :
  raw_relic_lists (route_message b msg) =
  raw_relic_lists b ++ (if has_suffix "RelicUnitDataDTO" msg then [msg] else []).
Proof.
  unfold route_message, has_suffix.
  destruct (dto_type msg) as [s|]; [|now rewrite app_nil_r].
  route_cases s; try (symmetry; apply app_nil_r).
  destruct (all_equipment msg); simpl; symmetry; apply app_nil_r.
Qed.

(** X2.  After a classification that ends normally the RelicRecords
    bucket holds the records whose discriminator ends with
    [RelicUnitDataDTO], and the CityRecords bucket those whose
    discriminator ends with [CityDTO], both in stream order and with
    repetitions kept. *)
Theorem X2_list_buckets_in_stream_order (msgs : list json) (b : Buckets) :
  classify (JList msgs) = (b, Ok tt) ->
  raw_relic_lists b = List.filter (has_suffix "RelicUnitDataDTO") msgs /\
  raw_cities b = List.filter (has_suffix "CityDTO") msgs.
Proof.
  rewrite classify_stream. intros H.
  apply for_each_classify_ok in H as [-> _]. split.
  - rewrite (fold_left_collect route_message raw_relic_lists
               (fun msg => if has_suffix "RelicUnitDataDTO" msg then [msg] else []))
      by apply route_message_raw_relic_lists.
    apply flat_map_filter.
  - rewrite (fold_left_collect route_message raw_cities
               (fun msg => if has_suffix "CityDTO" msg then [msg] else []))
      by apply route_message_raw_cities.
    apply flat_map_filter.
Qed.

Lemma X2_list_buckets_in_stream_order_witness :
  let r := JObj [("@type", JStr "x.RelicUnitDataDTO"); ("level", JNum 2)] in
  let c := JObj [("@type", JStr "x.CityDTO")] in
  let a := JObj [("@type", JStr "x.AllianceCityDTO")] in
  let b := fst (classify (JList [r; c; r; a])) in
  raw_relic_lists b = [r; r] /\ raw_cities b = [c; a].
Proof.
  intros r c a b.
  destruct (X2_list_buckets_in_stream_order [r; c; r; a] b) as [Hr Hc].
  - vm_compute. reflexivity.
  - rewrite Hr, Hc. split; reflexivity.
Defined.

(** X3.  Classification stops at the first record that is not a mapping
    or whose [@type] is not a string: it raises [AttributeError], the
    buckets hold what the records before it were routed to, and no record
    after it is looked at. *)
Theorem X3_malformed_record_stops_classification
    (pre post : list json) (bad : json) :
  Forall (fun msg => is_Some (dto_type msg)) pre ->
  dto_type bad = None ->
  classify (JList (pre ++ bad :: post)) =
  (fold_left route_message pre empty_buckets, Raise AttributeError).
Proof.
  intros Hpre Hbad. rewrite classify_stream, for_each_app.
  rewrite (bind_ok _ _ _ _ _ (for_each_classify_typed pre empty_buckets Hpre)).
  simpl. unfold bind. now rewrite (classify_message_untyped _ _ Hbad).
Qed.

Lemma X3_malformed_record_stops_classification_witness :
  let p := JObj [("@type", JStr "x.PlayerDTO")] in
  let h := JObj [("@type", JStr "x.HeroPush")] in
  classify (JList [p; JObj [("@type", JNum 3)]; h]) =
  (set_raw_playerdto p empty_buckets, Raise AttributeError).
Proof.
  intros p h.
  apply (X3_malformed_record_stops_classification [p] [h] (JObj [("@type", JNum 3)])).
  - repeat constructor. eexists. reflexivity.
  - reflexivity.
Defined.

Lemma classified_singletons msgs b :
  classify (JList msgs) = (b, Ok tt) ->
  raw_playerdto b = default JNull (last_of_kind "PlayerDTO" msgs) /\
  raw_heropush b = default JNull (last_of_kind "HeroPush" msgs).
Proof.
  rewrite classify_stream. intros H.
  apply for_each_classify_ok in H as [-> _]. split.
  - rewrite (fold_left_last route_message raw_playerdto (has_suffix "PlayerDTO") id)
      by apply route_message_raw_playerdto.
    unfold last_of_kind. now destruct (last _).
  - rewrite (fold_left_last route_message raw_heropush (has_suffix "HeroPush") id)
      by apply route_message_raw_heropush.
    unfold last_of_kind. now destruct (last _).
Qed.

Lemma classified_player_bucket msgs b :
  classify (JList msgs) = (b, Ok tt) -> player_bucket_classified b.
Proof.
  intros H. destruct (classified_singletons _ _ H) as [Hp _].
  unfold player_bucket_classified. rewrite Hp. unfold last_of_kind.
  destruct (last _) as [B|] eqn:E; [right|now left].
  apply last_filter_in in E.
  now apply has_suffix_truthy_mapping in E as [Hm _].
Qed.

Lemma build_without_heropush b m0 :
  player_bucket_classified b -> Py.truthy (raw_heropush b) = false ->
  build_master_tables b m0 =
  (set_player_info (Some (built_profile b)) m0, Raise missing_heropush).
Proof.
  intros Hp Hhp. unfold build_master_tables.
  assert (H1 : build_player_info b m0 =
               (set_player_info (Some (built_profile b)) m0, Ok tt)).
  { apply build_player_info_ok. exists (built_profile b).
    split; [now apply profile_result_classified|reflexivity]. }
  rewrite (bind_ok _ _ _ _ _ H1).
  unfold build_heroes. rewrite Hhp. reflexivity.
Qed.

(** X4.  After a classification that ends normally, the build raises
    its missing-HeroPush error exactly when the stream holds no record
    whose discriminator ends with [HeroPush]. *)
Theorem X4_abort_iff_no_heropush_record (msgs : list json) (b : Buckets) (m0 : Model) :
  classify (JList msgs) = (b, Ok tt) ->
  (List.filter (has_suffix "HeroPush") msgs = [] <->
   snd (build_master_tables b m0) = Raise missing_heropush).
Proof.
  intros H. pose proof (classified_player_bucket _ _ H) as Hp.
  destruct (classified_singletons _ _ H) as [_ Hhp]. unfold last_of_kind in Hhp.
  split.
  - intros Hnone. rewrite Hnone in Hhp. simpl in Hhp.
    rewrite (build_without_heropush b m0 Hp); [reflexivity|now rewrite Hhp].
  - intros Hraise.
    destruct (last (List.filter (has_suffix "HeroPush") msgs)) as [B|] eqn:E.
    + exfalso. simpl in Hhp. apply last_filter_in in E.
      apply has_suffix_truthy_mapping in E as [_ Ht]; [|reflexivity].
      rewrite <- Hhp in Ht.
      destruct (build_master_tables b m0) as [m r] eqn:Hb. simpl in Hraise. subst r.
      exact (build_master_tables_safe b Ht _ _ _ Hb).
    + now apply last_None in E.
Qed.

Lemma X4_abort_iff_no_heropush_record_witness :
  let p := JObj [("@type", JStr "x.PlayerDTO"); ("id", JNum 1)] in
  let b := fst (classify (JList [p])) in
  snd (build_master_tables b init_model) = Raise missing_heropush.
Proof.
  intros p b.
  apply (X4_abort_iff_no_heropush_record [p] b init_model); reflexivity.
Defined.

(** X5.  A build that returns leaves a model that does not depend on the
    model it started from: every field is assigned afresh, so building
    again from the same buckets, from any model, gives the same model. *)
Theorem X5_build_overwrites_previous_model (b : Buckets) (m0 m0' m : Model) :
  build_master_tables b m0 = (m, Ok tt) ->
  build_master_tables b m0' = (m, Ok tt).
Proof.
  intros H. apply build_master_tables_model.
  now apply build_master_tables_model in H.
Qed.

Lemma X5_build_overwrites_previous_model_witness :
  let h := JObj [("heroDefinitionId", JStr "hero.Boudica")] in
  let b := fst (classify (JList [heropush_record [h] []])) in
  exists m, build_master_tables b init_model = (m, Ok tt) /\
            build_master_tables b m = (m, Ok tt).
Proof.
  intros h b. eexists. split; [vm_compute; reflexivity|].
  apply (X5_build_overwrites_previous_model b init_model). vm_compute. reflexivity.
Defined.

(** X6.  With a Player bucket that is empty or a mapping, the profile is
    assigned first and never again: however the build ends, normally, on
    the missing HeroPush or on an error of a later step, the profile it
    leaves is the one read off the Player bucket. *)
Theorem X6_profile_assigned_whatever_the_outcome (b : Buckets) (m0 : Model) :
  player_bucket_classified b ->
  player_info (fst (build_master_tables b m0)) = Some (built_profile b).
Proof.
  intros Hp.
  assert (H1 : build_player_info b m0 =
               (set_player_info (Some (built_profile b)) m0, Ok tt)).
  { apply build_player_info_ok. exists (built_profile b).
    split; [now apply profile_result_classified|reflexivity]. }
  now rewrite (build_keeps_player_info _ _ _ H1).
Qed.

Lemma X6_profile_assigned_whatever_the_outcome_witness :
  let p := JObj [("@type", JStr "x.PlayerDTO"); ("username", JStr "ann")] in
  let hp := JObj [("@type", JStr "x.HeroPush"); ("unlocked", JNum 0)] in
  let b := fst (classify (JList [p; hp])) in
  snd (build_master_tables b init_model) = Raise TypeError /\
  player_info (fst (build_master_tables b init_model)) =
  Some (Profile.mk JNull JNull (JStr "ann") JNull).
Proof.
  intros p hp b. split; [vm_compute; reflexivity|].
  rewrite (X6_profile_assigned_whatever_the_outcome b init_model); [reflexivity|].
  right. reflexivity.
Defined.

(** ** Names shared between the collections of the model *)

Lemma rmap_ok_In {A B} (f : A -> result B) xs ys y :
  rmap f xs = Ok ys -> In y ys -> exists x, In x xs /\ f x = Ok y.
Proof.
  revert ys. induction xs as [|x xs IH]; simpl; intros ys.
  - intros [= <-] [].
  - unfold rbind. destruct (f x) as [y0|] eqn:E; [|discriminate].
    destruct (rmap f xs) as [ys'|]; [|discriminate].
    intros [= <-] [<-|Hin].
    + exists x. auto.
    + destruct (IH _ eq_refl Hin) as (x' & Hx' & Hf). exists x'. auto.
Qed.

Lemma eqb_string_inv s v : Py.eqb (JStr s) v = true -> v = JStr s.
Proof.
  destruct v; simpl; try discriminate.
  intros H. apply String.eqb_eq in H. now subst.
Qed.

Lemma hero_entry_name x h s :
  hero_entry x = Ok h -> Hero.heroDefinitionId h = JStr s ->
  Py.truthy (JStr s) = true ->
  Hero.name h = JStr (PyStr.replace s "hero." EmptyString).
Proof.
  unfold hero_entry. destruct x; try discriminate. cbn [Py.get rbind].
  destruct (default JNull (Py.assoc "heroDefinitionId" kv)) as [| | |s'| |] eqn:E;
    cbn [Py.truthy Py.replace rbind].
  - intros [= <-]. discriminate.
  - destruct b; [discriminate|]. intros [= <-]. discriminate.
  - destruct (negb _); [discriminate|]. intros [= <-]. discriminate.
  - destruct (negb (String.eqb s' EmptyString)) eqn:T; cbn [rbind].
    + intros [= <-] [= ->]. reflexivity.
    + intros [= <-] [= ->] Ht. simpl in Ht. congruence.
  - destruct l; [|discriminate]. intros [= <-]. discriminate.
  - destruct kv0; [|discriminate]. intros [= <-]. discriminate.
Qed.

(** The hero behind an identifier that is truthy and in the owned set. *)
Lemma owned_identifier_has_hero unl hes s :
  rmap hero_entry unl = Ok hes ->
  Py.truthy (JStr s) = true ->
  existsb (Py.eqb (JStr s)) (map Hero.heroDefinitionId hes) = true ->
  exists h, In h hes /\ Hero.heroDefinitionId h = JStr s /\
            Hero.name h = JStr (PyStr.replace s "hero." EmptyString).
Proof.
  intros Hhes Ht Hex. apply existsb_exists in Hex as (v & Hv & Heq).
  apply eqb_string_inv in Heq. subst v.
  apply in_map_iff in Hv as (h & Hid & Hh).
  destruct (rmap_ok_In _ _ _ _ Hhes Hh) as (x & _ & Hx).
  exists h. split; [exact Hh|]. split; [exact Hid|].
  exact (hero_entry_name _ _ _ Hx Hid Ht).
Qed.

Lemma owned_true_inv hero_def hs :
  owned hero_def hs = Ok true ->
  Py.truthy hero_def = true /\ existsb (Py.eqb hero_def) hs = true.
Proof.
  unfold owned, Py.in_set. destruct (Py.truthy hero_def); [|discriminate].
  destruct (Py.hashable hero_def); [|discriminate]. intros [= ->]. now split.
Qed.

Lemma equipment_step_some hs e n it :
  equipment_step hs e = Ok (Some (n, it)) ->
  exists s, Py.truthy (JStr s) = true /\
            existsb (Py.eqb (JStr s)) hs = true /\
            n = PyStr.replace s "hero." EmptyString.
Proof.
  unfold equipment_step. destruct e; try discriminate. cbn [Py.get rbind].
  destruct (owned _ hs) as [[]|] eqn:E; cbn [rbind]; try discriminate.
  apply owned_true_inv in E as [Ht Hex].
  destruct (default JNull _) as [| | |s| |]; try discriminate.
  cbn [Py.replace rbind]. intros H. exists s.
  split; [exact Ht|]. split; [exact Hex|].
  simpl in H. now injection H as <- _.
Qed.

Lemma relic_step_some hs r n it :
  relic_step hs r = Ok (Some (n, it)) ->
  exists s, Py.truthy (JStr s) = true /\
            existsb (Py.eqb (JStr s)) hs = true /\
            n = PyStr.replace s "hero." EmptyString.
Proof.
  unfold relic_step. destruct r; try discriminate.
  cbn [Py.get Py.contains rbind].
  destruct (bool_decide _); cbn [rbind].
  - destruct (Py.getitem _ _) as [u|]; cbn [rbind]; [|discriminate].
    destruct (Py.get u _ _) as [hero_def|]; cbn [rbind]; [|discriminate].
    destruct (owned _ hs) as [[]|] eqn:E; cbn [rbind]; try discriminate.
    apply owned_true_inv in E as [Ht Hex].
    destruct hero_def as [| | |s| |]; try discriminate.
    cbn [Py.replace rbind]. intros H. exists s.
    split; [exact Ht|]. split; [exact Hex|]. now injection H as <- _.
  - simpl. discriminate.
Qed.

Lemma select_In {A} (n : string) (kvs : list (string * A)) x :
  In x (select n kvs) -> In (n, x) kvs.
Proof.
  unfold select. induction kvs as [|[k v] kvs IH]; simpl; [tauto|].
  destruct (String.eqb k n) eqn:E; simpl.
  - apply String.eqb_eq in E. subst k. intros [<-|H]; auto.
  - auto.
Qed.

Lemma omap_id_In {A} (os : list (option A)) x :
  In x (omap id os) -> In (Some x) os.
Proof.
  induction os as [|[y|] os IH]; simpl; [tauto| |auto].
  intros [<-|H]; auto.
Qed.

Lemma nonempty_Some {A} (l items : list A) :
  nonempty l = Some items -> items = l /\ exists x, In x l.
Proof.
  destruct l as [|x l]; [discriminate|]. intros [= <-].
  split; [reflexivity|]. exists x. now left.
Qed.

Lemma group_key_has_member {A} (os : list (option (string * A))) name items :
  fold_left add_under (omap id os) ∅ !! name = Some items ->
  items <> [] /\ exists x, In (Some (name, x)) os.
Proof.
  rewrite group_lookup. intros H.
  apply nonempty_Some in H as [-> (x & Hx)]. split.
  - intros Hnil. rewrite Hnil in Hx. destruct Hx.
  - exists x. now apply omap_id_In, select_In.
Qed.

(** X7.  In a model the build returns, every key of the equipment
    mapping and of the relic mapping is the display name of a hero of the
    heroes collection, and the list under a key is never empty. *)
Theorem X7_groups_belong_to_heroes (b : Buckets) (m0 m : Model) :
  build_master_tables b m0 = (m, Ok tt) ->
  (forall name items,
     equipment m !! name = Some items ->
     items <> [] /\ exists h, In h (heroes m) /\ Hero.name h = JStr name) /\
  (forall name items,
     relics m !! name = Some items ->
     items <> [] /\ exists h, In h (heroes m) /\ Hero.name h = JStr name).
Proof.
  intros Hm. apply build_master_tables_model in Hm
    as (_ & info & unl & hes & hs & ds & des & eqs & eos & ros & cs & ces &
        ms & mes & aces & _ & _ & Hhes & Hhs & _ & _ & _ & Heos & Hros &
        _ & _ & _ & _ & _ & ->).
  apply set_of_ok in Hhs. subst hs. cbn [equipment relics heroes].
  split; intros name items Hlookup.
  - apply group_key_has_member in Hlookup as [Hne (x & Hx)]. split; [exact Hne|].
    destruct (rmap_ok_In _ _ _ _ Heos Hx) as (e & _ & He).
    apply equipment_step_some in He as (s & Ht & Hex & ->).
    destruct (owned_identifier_has_hero _ _ _ Hhes Ht Hex) as (h & Hh & _ & Hname).
    now exists h.
  - apply group_key_has_member in Hlookup as [Hne (x & Hx)]. split; [exact Hne|].
    destruct (rmap_ok_In _ _ _ _ Hros Hx) as (e & _ & He).
    apply relic_step_some in He as (s & Ht & Hex & ->).
    destruct (owned_identifier_has_hero _ _ _ Hhes Ht Hex) as (h & Hh & _ & Hname).
    now exists h.
Qed.

Lemma X7_groups_belong_to_heroes_witness :
  let h := JObj [("heroDefinitionId", JStr "hero.Boudica")] in
  let e := JObj [("id", JNum 1); ("equippedOnHeroDefinitionId", JStr "hero.Boudica")] in
  let eq_msg := JObj [("@type", JStr "x.AllEquipmentUnitDataDTO");
                      ("allEquipment", JList [e])] in
  let b := fst (classify (JList [heropush_record [h] []; eq_msg])) in
  exists m, build_master_tables b init_model = (m, Ok tt) /\
            equipment m !! "Boudica" = Some [equipment_of e] /\
            exists hero, In hero (heroes m) /\ Hero.name hero = JStr "Boudica".
Proof.
  intros h e eq_msg b. eexists. split; [vm_compute; reflexivity|].
  split; [vm_compute; reflexivity|].
  destruct (X7_groups_belong_to_heroes b init_model _ ltac:(vm_compute; reflexivity))
    as [Hequipment _].
  destruct (Hequipment "Boudica" [equipment_of e]) as [_ Hhero];
    [vm_compute; reflexivity|exact Hhero].
Defined.

(** ** What the entries of the model hold *)

Lemma hero_entry_ok x h : hero_entry x = Ok h -> h = hero_of x.
Proof.
  unfold hero_entry, hero_of. destruct x; try discriminate.
  cbn [Py.get rbind field field_or].
  destruct (Py.truthy _).
  - destruct (default JNull (Py.assoc "heroDefinitionId" kv)); try discriminate.
    cbn [Py.replace rbind display_name]. now intros [= <-].
  - now intros [= <-].
Qed.

Lemma city_entry_ok x c : city_entry x = Ok c -> c = city_of x.
Proof. destruct x; try discriminate. now intros [= <-]. Qed.

Lemma alliance_member_entry_ok x e :
  alliance_member_entry x = Ok e -> e = alliance_member_of x.
Proof. destruct x; try discriminate. now intros [= <-]. Qed.

(** X8.  A build that returns leaves one hero per element of the
    unlocked list, in order, with the element's fields copied (null when
    absent); the name is null when the identifier is absent, null or
    empty, and otherwise the identifier with [hero.] removed. *)
Theorem X8_hero_entries (b : Buckets) (m0 m : Model) :
  build_master_tables b m0 = (m, Ok tt) ->
  exists unl, unlocked_heroes b = Ok unl /\ heroes m = map hero_of unl.
Proof.
  intros Hm. apply build_master_tables_model in Hm
    as (_ & info & unl & hes & hs & ds & des & eqs & eos & ros & cs & ces &
        ms & mes & aces & _ & Hunl & Hhes & _ & _ & _ & _ & _ & _ & _ & _ & _ & _ & _ & ->).
  exists unl. split; [exact Hunl|]. cbn [heroes].
  exact (rmap_ok_map _ _ _ _ hero_entry_ok Hhes).
Qed.

Lemma X8_hero_entries_witness :
  let h1 := JObj [("heroDefinitionId", JStr "hero.Boudica"); ("level", JNum 7)] in
  let h2 := JObj [("level", JNum 1)] in
  let b := fst (classify (JList [heropush_record [h1; h2] []])) in
  exists m, build_master_tables b init_model = (m, Ok tt) /\
            map Hero.name (heroes m) = [JStr "Boudica"; JNull] /\
            map Hero.level (heroes m) = [JNum 7; JNum 1].
Proof.
  intros h1 h2 b. eexists. split; [vm_compute; reflexivity|].
  destruct (X8_hero_entries b init_model _ ltac:(vm_compute; reflexivity))
    as (unl & Hunl & ->).
  vm_compute in Hunl. injection Hunl as <-. split; reflexivity.
Defined.

(** X9.  A build that returns leaves one city per element of the
    player's [unlockedCities] list, in order, with its identifier and
    definition identifier (null when absent) and with
    [placedBuildingAmounts] and [buildingLimits] replaced by the empty
    mapping when absent. *)
Theorem X9_city_entries (b : Buckets) (m0 m : Model) :
  build_master_tables b m0 = (m, Ok tt) ->
  exists cs, unlocked_cities b = Ok cs /\ cities m = map city_of cs.
Proof.
  intros Hm. apply build_master_tables_model in Hm
    as (_ & info & unl & hes & hs & ds & des & eqs & eos & ros & cs & ces &
        ms & mes & aces & _ & _ & _ & _ & _ & _ & _ & _ & _ & Hcs & Hces & _ & _ & _ & ->).
  exists cs. split; [exact Hcs|]. cbn [cities].
  exact (rmap_ok_map _ _ _ _ city_entry_ok Hces).
Qed.

Lemma X9_city_entries_witness :
  let c := JObj [("id", JNum 4); ("placedBuildingAmounts", JObj [("b", JNum 2)])] in
  let p := JObj [("@type", JStr "x.PlayerDTO"); ("unlockedCities", JList [c])] in
  let b := fst (classify (JList [p; heropush_record [] []])) in
  exists m, build_master_tables b init_model = (m, Ok tt) /\
            cities m = [City.mk (JNum 4) JNull (JObj [("b", JNum 2)]) (JObj [])].
Proof.
  intros c p b. eexists. split; [vm_compute; reflexivity|].
  destruct (X9_city_entries b init_model _ ltac:(vm_compute; reflexivity))
    as (cs & Hcs & ->).
  vm_compute in Hcs. injection Hcs as <-. reflexivity.
Defined.

(** X10.  A build that returns leaves one alliance member per element of
    the [members] list of the AllianceMembers bucket, in order, with
    [playerId], [playerName] and [ageDefinitionId] stored as [id], [name]
    and [age]; there is none when the bucket is empty or has no
    [members] field. *)
Theorem X10_alliance_member_entries (b : Buckets) (m0 m : Model) :
  build_master_tables b m0 = (m, Ok tt) ->
  (exists ms, member_list b = Ok ms /\
              alliance_members m = map alliance_member_of ms) /\
  (Py.truthy (raw_alliance_members b) = false \/
   Py.get (raw_alliance_members b) "members" (JList []) = Ok (JList []) ->
   alliance_members m = []).
Proof.
  intros Hm. apply build_master_tables_model in Hm
    as (_ & info & unl & hes & hs & ds & des & eqs & eos & ros & cs & ces &
        ms & mes & aces & _ & _ & _ & _ & _ & _ & _ & _ & _ & _ & _ & Hms & Hmes & _ & ->).
  cbn [alliance_members].
  pose proof (rmap_ok_map _ _ _ _ alliance_member_entry_ok Hmes) as ->.
  split; [now exists ms|]. intros H.
  unfold member_list in Hms. destruct H as [H|H].
  - rewrite H in Hms. now injection Hms as <-.
  - destruct (Py.truthy (raw_alliance_members b)).
    + rewrite H in Hms. simpl in Hms. now injection Hms as <-.
    + now injection Hms as <-.
Qed.

Lemma X10_alliance_member_entries_witness :
  let mem := JObj [("playerId", JNum 8); ("playerName", JStr "Zed"); ("power", JNum 900)] in
  let am := JObj [("@type", JStr "x.AllianceMembersResponse"); ("members", JList [mem])] in
  let b := fst (classify (JList [am; heropush_record [] []])) in
  exists m, build_master_tables b init_model = (m, Ok tt) /\
            alliance_members m =
            [AllianceMember.mk (JNum 8) (JStr "Zed") JNull (JNum 900) JNull].
Proof.
  intros mem am b. eexists. split; [vm_compute; reflexivity|].
  destruct (X10_alliance_member_entries b init_model _ ltac:(vm_compute; reflexivity))
    as [(ms & Hms & ->) _].
  vm_compute in Hms. injection Hms as <-. reflexivity.
Defined.

(** ** Loading the startup document *)

(** X11.  The end of [fetch_startup] finds messages exactly in a
    document that is a mapping whose [rootContext] is a mapping with a
    [messages] key, and they are the value of that key, whatever it is.
    On any other document it raises its missing-messages exception or
    [TypeError], the latter when a membership test or a subscript is
    applied to something that does not support it: a list or a string
    that contains [rootContext] passes the first test and fails at the
    subscript. *)
Theorem X11_fetch_finds_nested_messages (startup : json) :
  (forall msgs,
     fetch_startup_messages startup = Ok msgs <->
     exists kv kv',
       startup = JObj kv /\
       Py.assoc "rootContext" kv = Some (JObj kv') /\
       Py.assoc "messages" kv' = Some msgs) /\
  ((exists msgs, fetch_startup_messages startup = Ok msgs) \/
   fetch_startup_messages startup = Raise missing_messages \/
   fetch_startup_messages startup = Raise TypeError) /\
  (forall kv,
     startup = JObj kv -> Py.assoc "rootContext" kv = None ->
     fetch_startup_messages startup = Raise missing_messages) /\
  (forall l,
     startup = JList l -> In (JStr "rootContext") l ->
     fetch_startup_messages startup = Raise TypeError).
Proof.
  assert (Hcases :
    match startup with
    | JObj kv =>
        match Py.assoc "rootContext" kv with
        | Some (JObj kv') =>
            fetch_startup_messages startup =
            match Py.assoc "messages" kv' with
            | Some msgs => Ok msgs
            | None => Raise missing_messages
            end
        | Some _ =>
            fetch_startup_messages startup = Raise missing_messages \/
            fetch_startup_messages startup = Raise TypeError
        | None => fetch_startup_messages startup = Raise missing_messages
        end
    | JList l =>
        fetch_startup_messages startup =
        if existsb (Py.is_str "rootContext") l
        then Raise TypeError else Raise missing_messages
    | JStr s =>
        fetch_startup_messages startup =
        if PyStr.occurs "rootContext" s
        then Raise TypeError else Raise missing_messages
    | _ => fetch_startup_messages startup = Raise TypeError
    end).
  { unfold fetch_startup_messages.
    destruct startup as [| | |s|l|kv]; cbn [Py.contains rbind]; try reflexivity.
    - now destruct (PyStr.occurs _ s).
    - now destruct (existsb _ l).
    - cbn [Py.getitem].
      destruct (Py.assoc "rootContext" kv) as [root|] eqn:Hroot.
      + rewrite bool_decide_eq_true_2 by eauto. cbn [rbind].
        destruct root as [| | |s|l|kv']; cbn [Py.contains rbind]; auto.
        * destruct (PyStr.occurs _ s); cbn [Py.getitem rbind]; auto.
        * destruct (existsb _ l); cbn [Py.getitem rbind]; auto.
        * cbn [Py.getitem].
          destruct (Py.assoc "messages" kv') as [x|] eqn:Hx.
          -- rewrite bool_decide_eq_true_2 by eauto. reflexivity.
          -- rewrite bool_decide_eq_false_2 by (intros [? [=]]). reflexivity.
      + rewrite bool_decide_eq_false_2 by (intros [? [=]]). reflexivity. }
  split; [|split; [|split]].
  - intros msgs. split.
    + intros H. destruct startup as [| | |s|l|kv]; rewrite H in Hcases;
        try discriminate.
      * destruct (PyStr.occurs _ s); discriminate.
      * destruct (existsb _ l); discriminate.
      * destruct (Py.assoc "rootContext" kv) as [root|] eqn:Hroot; [|discriminate].
        destruct root as [| | |s|l|kv'];
          try (destruct Hcases; discriminate).
        destruct (Py.assoc "messages" kv') as [x|] eqn:Hx; [|discriminate].
        injection Hcases as <-. now exists kv, kv'.
    + intros (kv & kv' & -> & Hroot & Hx). rewrite Hroot, Hx in Hcases. exact Hcases.
  - destruct startup as [| | |s|l|kv]; auto.
    + destruct (PyStr.occurs _ s); auto.
    + destruct (existsb _ l); auto.
    + destruct (Py.assoc "rootContext" kv) as [root|]; auto.
      destruct root as [| | |s|l|kv']; try tauto.
      destruct (Py.assoc "messages" kv'); eauto.
  - intros kv -> Hroot. now rewrite Hroot in Hcases.
  - intros l -> Hin.
    assert (Hex : existsb (Py.is_str "rootContext") l = true).
    { apply existsb_exists. exists (JStr "rootContext"). split; [exact Hin|reflexivity]. }
    now rewrite Hex in Hcases.
Qed.

Lemma X11_fetch_finds_nested_messages_witness :
  let msgs := JList [heropush_record [] []] in
  fetch_startup_messages (JObj [("rootContext", JObj [("messages", msgs)])]) = Ok msgs /\
  fetch_startup_messages (JObj [("rootContext", JObj [("session", JNum 1)])]) =
  Raise missing_messages /\
  fetch_startup_messages (JList [JStr "rootContext"]) = Raise TypeError.
Proof.
  intros msgs. split; [|split].
  - apply (proj1 (X11_fetch_finds_nested_messages _)).
    eexists _, _. repeat split; reflexivity.
  - destruct (proj1 (proj2 (X11_fetch_finds_nested_messages
                 (JObj [("rootContext", JObj [("session", JNum 1)])])))) as [[x H]|[H|H]].
    + apply (proj1 (X11_fetch_finds_nested_messages _)) in H
        as (kv & kv' & [= <-] & [= <-] & [=]).
    + exact H.
    + discriminate H.
  - apply (proj2 (proj2 (proj2 (X11_fetch_finds_nested_messages _))) _ eq_refl).
    now left.
Defined.

(** ** The CSV exports *)

Lemma for_each_map {St A B} (h : A -> B) (xs : list A) (body : B -> M St unit) s :
  for_each (map h xs) body s = for_each xs (fun x => body (h x)) s.
Proof.
  revert s. induction xs as [|x xs IH]; intros s; simpl; [reflexivity|].
  apply bind_ext. intros _ s1. apply IH.
Qed.

Lemma for_each_flat_map {St A B} (g : A -> list B) (xs : list A)
    (body : B -> M St unit) s :
  for_each (flat_map g xs) body s = for_each xs (fun x => for_each (g x) body) s.
Proof.
  revert s. induction xs as [|x xs IH]; intros s; simpl; [reflexivity|].
  rewrite for_each_app. apply bind_ext. intros _ s1. apply IH.
Qed.

(** The loop over the items of a mapping of lists visits its entries. *)
Lemma for_each_entries {St A} (items : list (string * list A))
    (body : string * A -> M St unit) s :
  for_each items (fun p => for_each p.2 (fun x => body (p.1, x))) s =
  for_each (entries_of items) body s.
Proof.
  unfold entries_of. rewrite for_each_flat_map. apply for_each_ext.
  intros p s1. now rewrite for_each_map.
Qed.

Lemma write_row_step {A} (encodes : list json -> bool)
    (f : A -> result (list json)) x xs (file : csv_file) :
  for_each (x :: xs)
    (fun x => bind (lift (f x)) (fun row => writerow encodes row)) file =
  match f x with
  | Ok row =>
      if encodes row
      then for_each xs
             (fun x => bind (lift (f x)) (fun row => writerow encodes row))
             (file ++ [row])
      else (file, Raise UnicodeEncodeError)
  | Raise e => (file, Raise e)
  end.
Proof.
  simpl. unfold bind, lift, writerow, modify, raise.
  destruct (f x) as [row|e]; [destruct (encodes row)|]; reflexivity.
Qed.

(** A loop that writes one row per element stops at the first element
    that has no row or whose row cannot be encoded; the rows before it
    are written. *)
Lemma write_rows {A} (encodes : list json -> bool)
    (f : A -> result (list json)) (P : A -> bool) (g : A -> list json) (e : exn) :
  (forall x, f x = if P x then Ok (g x) else Raise e) ->
  forall xs (file : csv_file),
    let out := for_each xs
                 (fun x => bind (lift (f x)) (fun row => writerow encodes row)) file in
    (snd out = Ok tt <-> forallb (fun x => P x && encodes (g x)) xs = true) /\
    (snd out = Ok tt \/
     (snd out = Raise e /\ exists x, In x xs /\ P x = false) \/
     (snd out = Raise UnicodeEncodeError /\
      exists x, In x xs /\ P x = true /\ encodes (g x) = false)) /\
    (exists n, fst out = file ++ map g (take n xs) /\
               (snd out = Ok tt -> n = length xs)).
Proof.
  intros Hf xs. induction xs as [|x xs IH]; intros file; cbn zeta.
  - simpl. unfold ret. simpl. split; [tauto|]. split; [now left|].
    exists 0%nat. now rewrite app_nil_r.
  - rewrite write_row_step, Hf. cbn [forallb].
    destruct (P x) eqn:HP; cbn [andb].
    + destruct (encodes (g x)) eqn:HE; cbn [andb].
      * destruct (IH (file ++ [g x])) as (H1 & H2 & n & H3 & H4).
        split; [exact H1|]. split.
        { destruct H2 as [H2|[[H2 (y & Hy & Hy')]|[H2 (y & Hy & Hy')]]].
          - now left.
          - right; left. split; [exact H2|]. exists y. split; [now right|exact Hy'].
          - right; right. split; [exact H2|]. exists y. split; [now right|exact Hy']. }
        exists (S n). split.
        { rewrite H3, <- app_assoc. reflexivity. }
        intros Hok. simpl. now rewrite (H4 Hok).
      * split; [split; discriminate|]. split.
        { right; right. split; [reflexivity|]. exists x. split; [now left|now split]. }
        exists 0%nat. split; [now rewrite app_nil_r|discriminate].
    + split; [split; discriminate|]. split.
      { right; left. split; [reflexivity|]. exists x. split; [now left|exact HP]. }
      exists 0%nat. split; [now rewrite app_nil_r|discriminate].
Qed.

Lemma equipment_row_outcome (dumps : json -> string) (p : string * Equipment.t) :
  equipment_row dumps p.1 (equipment_dict p.2) =
  if exportable p.2 then Ok (equipment_row_of dumps p) else Raise AttributeError.
Proof.
  destruct p as [n [i sl st ra lv ma su]].
  unfold equipment_row, exportable, equipment_row_of, equipment_dict, field.
  cbn [fst snd Equipment.id Equipment.slot Equipment.set Equipment.rarity
       Equipment.level Equipment.mainAttribute Equipment.subAttributes].
  destruct ma as [| | | | |kv]; try reflexivity.
  cbn [is_mapping andb field_or]. simpl.
  destruct (default (JObj []) (Py.assoc "statBoost" kv)); reflexivity.
Qed.

Lemma entries_of_In {A} (items : list (string * list A)) n (x : A) :
  In (n, x) (entries_of items) <-> exists its, In (n, its) items /\ In x its.
Proof.
  unfold entries_of. rewrite in_flat_map. split.
  - intros ([k its] & Hp & Hx). simpl in Hx.
    apply in_map_iff in Hx as (y & [= <- <-] & Hy). eauto.
  - intros (its & Hp & Hx). exists (n, its). split; [exact Hp|].
    simpl. apply in_map_iff. eauto.
Qed.

(** X13.  The equipment export, run on the items of the equipment
    mapping of a model, returns exactly when every stored entry has a
    main attribute that is a mapping whose [statBoost] is absent or a
    mapping, and a row that can be encoded.  It raises nothing but
    [AttributeError] and [UnicodeEncodeError]; when every row can be
    encoded and some entry has no such main attribute it raises
    [AttributeError] (the [{}] default of [eq.get("mainAttribute", {})]
    never applies, the key being always stored).  When it returns, the
    file holds the header and one row per entry, whatever it held
    before. *)
Theorem X13_equipment_csv_outcome (dumps : json -> string)
    (encodes : list json -> bool) (m : Model)
    (items : list (string * list Equipment.t)) (file0 : csv_file) :
  list_to_map items = equipment m ->
  NoDup items.*1 ->
  encodes equipment_csv_header = true ->
  let out := export_equipment_csv dumps encodes items file0 in
  (snd out = Ok tt <->
   forall name its e,
     equipment m !! name = Some its -> In e its ->
     exportable e = true /\ encodes (equipment_row_of dumps (name, e)) = true) /\
  (snd out = Ok tt \/ snd out = Raise AttributeError \/
   snd out = Raise UnicodeEncodeError) /\
  ((forall name its e,
      equipment m !! name = Some its -> In e its ->
      encodes (equipment_row_of dumps (name, e)) = true) ->
   (exists name its e,
      equipment m !! name = Some its /\ In e its /\ exportable e = false) ->
   snd out = Raise AttributeError) /\
  (snd out = Ok tt ->
   fst out = equipment_csv_header :: map (equipment_row_of dumps) (entries_of items)).
Proof.
  intros Hmap Hnd Hhdr out.
  assert (Hout : out =
    for_each (entries_of items)
      (fun q => bind (lift (equipment_row dumps q.1 (equipment_dict q.2)))
                  (fun row => writerow encodes row))
      [equipment_csv_header]).
  { subst out. unfold export_equipment_csv, bind at 1 2, open_w, writerow at 1.
    rewrite Hhdr. unfold modify. cbn [app]. now rewrite <- for_each_entries. }
  destruct (write_rows encodes
              (fun q => equipment_row dumps q.1 (equipment_dict q.2))
              (fun q => exportable q.2) (equipment_row_of dumps) AttributeError
              (equipment_row_outcome dumps) (entries_of items) [equipment_csv_header])
    as (Hiff & Hkind & n & Hfst & Hn).
  cbn zeta in Hiff, Hkind, Hfst, Hn. rewrite <- Hout in Hiff, Hkind, Hfst, Hn.
  assert (Hlook : forall name e,
            In (name, e) (entries_of items) <->
            exists its, equipment m !! name = Some its /\ In e its).
  { intros name e. rewrite entries_of_In. split; intros (its & H1 & H2); exists its;
      (split; [|exact H2]).
    - rewrite <- Hmap. apply elem_of_list_to_map; [exact Hnd|].
      now apply list_elem_of_In.
    - apply list_elem_of_In, elem_of_list_to_map; [exact Hnd|]. now rewrite Hmap. }
  split; [|split; [|split]].
  - rewrite Hiff, forallb_forall. split.
    + intros H name its e Hl He.
      assert (Hin : In (name, e) (entries_of items)) by (apply Hlook; eauto).
      apply H in Hin. now apply andb_true_iff in Hin.
    + intros H [name e] Hin. apply Hlook in Hin as (its & Hl & He).
      apply andb_true_iff. exact (H name its e Hl He).
  - destruct Hkind as [H|[[H _]|[H _]]]; auto.
  - intros Henc (name & its & e & Hl & He & Hx).
    destruct Hkind as [H|[[H _]|[H ([name' e'] & Hin & _ & Hbad)]]].
    + apply Hiff in H. rewrite forallb_forall in H.
      assert (Hin : In (name, e) (entries_of items)) by (apply Hlook; eauto).
      apply H in Hin. cbn [snd] in Hin. rewrite Hx in Hin. discriminate.
    + exact H.
    + apply Hlook in Hin as (its' & Hl' & He').
      rewrite (Henc name' its' e' Hl' He') in Hbad. discriminate.
  - intros Hok. rewrite Hfst, (Hn Hok), firstn_all. reflexivity.
Qed.

Lemma X13_equipment_csv_outcome_witness :
  let hero := JObj [("heroDefinitionId", JStr "hero.Boudica")] in
  let item := JObj [("id", JNum 5); ("equippedOnHeroDefinitionId", JStr "hero.Boudica")] in
  let eqs := JObj [("@type", JStr "x.AllEquipmentUnitDataDTO");
                   ("allEquipment", JList [item])] in
  let b := fst (classify (JList [heropush_record [hero] []; eqs])) in
  let m := fst (build_master_tables b init_model) in
  let e := Equipment.mk (JNum 5) JNull JNull JNull JNull JNull (JList []) in
  snd (build_master_tables b init_model) = Ok tt /\
  snd (export_equipment_csv (fun _ => "[]"%string) (fun _ => true)
         [("Boudica"%string, [e])] []) =
  Raise AttributeError.
Proof.
  intros hero item eqs b m e. split; [vm_compute; reflexivity|].
  destruct (X13_equipment_csv_outcome (fun _ => "[]"%string) (fun _ => true) m
              [("Boudica"%string, [e])] [])
    as (_ & _ & Hraise & _).
  - vm_compute. reflexivity.
  - repeat constructor. simpl. intros H. inversion H.
  - reflexivity.
  - apply Hraise; [reflexivity|].
    exists "Boudica"%string, [e], e.
    split; [vm_compute; reflexivity|]. split; [now left|reflexivity].
Defined.



(** ** The summary of the dashboard and of [main] *)

Lemma total_items_empty {A} : total_items (∅ : gmap string (list A)) = 0%nat.
Proof. unfold total_items. now rewrite map_to_list_empty. Qed.

Lemma total_items_insert_fresh {A} (d : gmap string (list A)) k v :
  d !! k = None -> total_items (<[k := v]> d) = (length v + total_items d)%nat.
Proof.
  intros H. unfold total_items. now rewrite (map_to_list_insert d k v H).
Qed.

Lemma total_items_insert {A} (d : gmap string (list A)) k v :
  (total_items (<[k := v]> d) + length (default [] (d !! k)) =
   length v + total_items d)%nat.
Proof.
  destruct (d !! k) as [l|] eqn:E; simpl.
  - assert (H1 : total_items (<[k := v]> d) =
                 (length v + total_items (delete k d))%nat).
    { rewrite <- insert_delete_eq.
      apply total_items_insert_fresh, lookup_delete_eq. }
    assert (H2 : total_items d = (length l + total_items (delete k d))%nat).
    { rewrite <- (insert_delete_id d k l E) at 1.
      apply total_items_insert_fresh, lookup_delete_eq. }
    lia.
  - rewrite total_items_insert_fresh by exact E. simpl. lia.
Qed.

Lemma add_under_insert {A} (d : gmap string (list A)) k (x : A) :
  add_under d (k, x) = <[k := default [] (d !! k) ++ [x]]> d.
Proof.
  apply map_eq. intros n. rewrite add_under_lookup, lookup_insert.
  reflexivity.
Qed.

(** One kept entry is one more item. *)
Lemma total_items_add_under {A} (d : gmap string (list A)) (p : string * A) :
  total_items (add_under d p) = S (total_items d).
Proof.
  destruct p as [k x]. rewrite add_under_insert.
  pose proof (total_items_insert d k (default [] (d !! k) ++ [x])) as H.
  rewrite length_app in H. simpl in H. lia.
Qed.

Lemma total_items_fold {A} (kvs : list (string * A)) (d : gmap string (list A)) :
  total_items (fold_left add_under kvs d) = (total_items d + length kvs)%nat.
Proof.
  revert d. induction kvs as [|p kvs IH]; intros d; simpl; [lia|].
  rewrite IH, total_items_add_under. lia.
Qed.

Lemma length_omap_filter {A B} (f : A -> option B) (P : A -> bool) (l : list A) :
  (forall x, P x = true <-> is_Some (f x)) ->
  length (omap f l) = length (List.filter P l).
Proof.
  intros H. induction l as [|x l IH]; [reflexivity|].
  cbn [omap list_omap List.filter]. specialize (H x).
  destruct (f x) as [y|], (P x); simpl.
  - now rewrite <- IH.
  - assert (false = true) by (apply H; eauto). discriminate.
  - assert (is_Some (@None B)) as [? [=]] by now apply H.
  - exact IH.
Qed.

(** X15.  After a build that returns, the equipment total of the
    dashboard is the number of entries of the flattened EquipmentLists
    bucket that were kept (equipped-on identifier truthy and owned), and
    the relic total the number of kept relic records: grouping by hero
    neither loses nor repeats an entry. *)
Theorem X15_totals_count_kept_records (b : Buckets) (m0 m : Model) :
  build_master_tables b m0 = (m, Ok tt) ->
  exists unl eqs,
    unlocked_heroes b = Ok unl /\
    equipment_entries b = Ok eqs /\
    let hero_set := map (field "heroDefinitionId") unl in
    total_items (equipment m) =
    length (List.filter (fun e => kept hero_set (equipped_on e)) eqs) /\
    total_items (relics m) =
    length (List.filter (fun r => kept hero_set (supporting_hero r))
              (raw_relic_lists b)).
Proof.
  intros Hm. apply build_master_tables_model in Hm
    as (_ & info & unl & hes & hs & ds & des & eqs & eos & ros & cs & ces &
        ms & mes & aces & _ & Hunl & Hhes & Hhs & _ & _ & Heqs & Heos & Hros &
        _ & _ & _ & _ & _ & ->).
  exists unl, eqs. split; [exact Hunl|]. split; [exact Heqs|].
  apply set_of_ok in Hhs.
  rewrite (rmap_ok_proj _ _ _ _ _ hero_entry_id Hhes) in Hhs. subst hs.
  apply (rmap_ok_map _ _ _ _ (equipment_step_ok _)) in Heos.
  apply (rmap_ok_map _ _ _ _ (relic_step_ok _)) in Hros. subst eos ros.
  cbn [equipment relics].
  rewrite !total_items_fold, !total_items_empty, !omap_map_id. cbn [Nat.add].
  split; apply length_omap_filter; intros x.
  - unfold equipment_kept. destruct (kept _ _); split; eauto; try discriminate.
    intros [? [=]].
  - unfold relic_kept. destruct (kept _ _); split; eauto; try discriminate.
    intros [? [=]].
Qed.

Lemma X15_totals_count_kept_records_witness :
  let hero := JObj [("heroDefinitionId", JStr "hero.Boudica")] in
  let on h := JObj [("id", JNum 5); ("equippedOnHeroDefinitionId", JStr h)] in
  let eqs := JObj [("@type", JStr "x.AllEquipmentUnitDataDTO");
                   ("allEquipment",
                    JList [on "hero.Boudica"; on "hero.Nobody"; on "hero.Boudica"])] in
  let b := fst (classify (JList [heropush_record [hero] []; eqs])) in
  exists m, build_master_tables b init_model = (m, Ok tt) /\
            total_items (equipment m) = 2%nat /\ total_items (relics m) = 0%nat.
Proof.
  intros hero on eqs b. eexists. split; [vm_compute; reflexivity|].
  destruct (X15_totals_count_kept_records b init_model _
              ltac:(vm_compute; reflexivity))
    as (unl & es & Hunl & Hes & He & Hr).
  vm_compute in Hunl, Hes. injection Hunl as <-. injection Hes as <-.
  rewrite He, Hr. split; reflexivity.
Defined.

(** X16.  Once the build has assigned the profile, the player name of
    the dashboard is never falsy: it is the display name when that is
    truthy, else the user name when that is truthy, else [Unknown].  The
    player line of the final summary of [main] is the stored display
    name itself, [None] included: its [Unknown] default never applies,
    the key being always stored. *)
Theorem X16_player_name_fallbacks (m : Model) (p : Profile.t) :
  player_info m = Some p ->
  dashboard_player_name (profile_dict (player_info m)) =
  Ok (if Py.truthy (Profile.displayName p) then Profile.displayName p
      else if Py.truthy (Profile.username p) then Profile.username p
      else JStr "Unknown") /\
  (exists v, dashboard_player_name (profile_dict (player_info m)) = Ok v /\
             Py.truthy v = true) /\
  summary_player_name (profile_dict (player_info m)) = Ok (Profile.displayName p).
Proof.
  intros ->. destruct p as [i d u a].
  unfold dashboard_player_name, summary_player_name, profile_dict.
  cbn [Profile.displayName Profile.username]. simpl.
  split; [|split; [|reflexivity]].
  - destruct (Py.truthy d); [reflexivity|]. now destruct (Py.truthy u).
  - destruct (Py.truthy d) eqn:Hd; [now exists d|].
    destruct (Py.truthy u) eqn:Hu; [now exists u|]. now eexists.
Qed.

Lemma X16_player_name_fallbacks_witness :
  let player := JObj [("@type", JStr "x.PlayerDTO"); ("id", JNum 3);
                      ("displayName", JStr EmptyString); ("username", JStr "ann")] in
  let b := fst (classify (JList [player; heropush_record [] []])) in
  let m := fst (build_master_tables b init_model) in
  dashboard_player_name (profile_dict (player_info m)) = Ok (JStr "ann") /\
  summary_player_name (profile_dict (player_info m)) = Ok (JStr EmptyString).
Proof.
  intros player b m.
  destruct (X16_player_name_fallbacks m
              (Profile.mk (JNum 3) (JStr EmptyString) (JStr "ann") JNull)
              ltac:(vm_compute; reflexivity))
    as (Hname & _ & Hsummary).
  split; [exact Hname|exact Hsummary].
Defined.

(** ** Readable building names *)

Lemma string_drop_0 s : string_drop 0 s = s.
Proof. now destruct s. Qed.

Lemma startswith_drop p s :
  PyStr.startswith s p = true -> p +:+ string_drop (String.length p) s = s.
Proof.
  revert s. induction p as [|a p IH]; intros s; cbn [PyStr.startswith].
  - intros _. simpl. apply string_drop_0.
  - destruct s as [|c s]; [discriminate|]. intros H.
    apply andb_true_iff in H as [Hc Hp]. apply Ascii.eqb_eq in Hc. subst c.
    change (String a (p +:+ string_drop (String.length p) s) = String a s).
    f_equal. now apply IH.
Qed.

(** Replacing a text by itself: what is still to skip is dropped, the
    rest is unchanged. *)
Lemma replace_from_same c a k s :
  PyStr.replace_from (String c a) (String c a) k s = string_drop k s.
Proof.
  revert k. induction s as [|d s IH]; intros k.
  - now destruct k.
  - destruct k as [|k]; cbn [PyStr.replace_from string_drop].
    + destruct (PyStr.startswith (String d s) (String c a)) eqn:E.
      * rewrite IH. cbn [String.length Nat.pred].
        cbn [PyStr.startswith] in E.
        apply andb_true_iff in E as [Hc Ha]. apply Ascii.eqb_eq in Hc. subst d.
        change (String c (a +:+ string_drop (String.length a) s) = String c s).
        f_equal. now apply startswith_drop.
      * now rewrite IH, string_drop_0.
    + apply IH.
Qed.

Lemma replace_same s c a : PyStr.replace s (String c a) (String c a) = s.
Proof. unfold PyStr.replace. now rewrite replace_from_same, string_drop_0. Qed.

Lemma split_on_length sep s :
  length (split_on sep s) = S (count_char sep s).
Proof.
  induction s as [|c s IH]; [reflexivity|]. cbn [split_on count_char].
  destruct (Ascii.eqb c sep); simpl.
  - now rewrite IH.
  - destruct (split_on sep s); [discriminate|]. exact IH.
Qed.

(** X17.  A building key that, once every [building.Building_] is
    removed, has fewer than three underscores is returned as it came,
    prefix included.  Otherwise the result is made of the first four
    parts only: the era written out, the name with [CultureSite] turned
    into [Culture Site] (the other seven replacements of the name change
    nothing), the variant unchanged (all six of its replacements change
    nothing) and the level; further parts are dropped. *)
Theorem X17_format_building_name (raw_key : string) :
  let key := PyStr.replace raw_key "building.Building_" EmptyString in
  ((count_char "_" key < 3)%nat -> format_building_name raw_key = raw_key) /\
  (forall era name variant level rest,
     split_on "_" key = era :: name :: variant :: level :: rest ->
     format_building_name raw_key =
     readable_era era +:+ " – " +:+
     PyStr.replace name "CultureSite" "Culture Site" +:+ " " +:+
     variant +:+ " (Level " +:+ level +:+ ")").
Proof.
  intros key. unfold format_building_name. fold key. cbn zeta. split.
  - intros H. rewrite split_on_length.
    destruct (Nat.ltb_spec (S (count_char "_" key)) 4) as [_|Hge]; [reflexivity|lia].
  - intros era name variant level rest ->.
    cbn [length Nat.ltb Nat.leb nth]. rewrite !replace_same. reflexivity.
Qed.

Lemma X17_format_building_name_witness :
  format_building_name "building.Building_AgeOfTheFranks_CultureSite_Small_2_x" =
  "Age of the Franks – Culture Site Small (Level 2)"%string /\
  format_building_name "building.Building_Home_2" = "building.Building_Home_2"%string.
Proof.
  split.
  - rewrite (proj2 (X17_format_building_name
                      "building.Building_AgeOfTheFranks_CultureSite_Small_2_x")
               "AgeOfTheFranks"%string "CultureSite"%string "Small"%string
               "2"%string ["x"%string] ltac:(vm_compute; reflexivity)).
    vm_compute. reflexivity.
  - apply (proj1 (X17_format_building_name "building.Building_Home_2")).
    vm_compute. lia.
Defined.
